(** * A shallow embedding of [backend/app/stream.py]

    The module has one class, [ConverseApiStreamHandler], whose generator
    method [run] opens a Bedrock [converse_stream] call, relays every text
    delta to the [on_stream] callback and, on the [metadata] event, hands an
    [OnStopInput] summary to the [on_stop] callback.

    The embedding keeps the shape of the Python code:
    - Python values are a small JSON-like inductive, dictionaries are
      [gmap string value], [str] is a list of Unicode code points;
    - exceptions are an error monad ([result]);
    - the generator is a computation in a monad that threads the caller's
      world (the state the callbacks act on), may raise, and writes the
      sequence of observable actions (log calls, the backend call, callback
      invocations, yields) in program order. *)

From Stdlib Require Import ZArith NArith SpecFloat.
From stdpp Require Import gmap strings list fin_maps.

Set Warnings "-register-all".

(** ** Python values *)

Module Py.

(** A [str] is a sequence of Unicode code points. *)
Definition str : Type := list N.

(** The [str] of an ASCII literal of the source. *)
Fixpoint of_string (s : string) : str :=
  match s with
  | EmptyString => []
  | String a s' => Ascii.N_of_ascii a :: of_string s'
  end.

(** [str.isspace] on one character: the code points CPython lists in
    [_PyUnicode_IsWhitespace]. *)
Definition isspace (c : N) : bool :=
  ((9 <=? c) && (c <=? 13)            (* \t \n \v \f \r *)
   || (28 <=? c) && (c <=? 32)        (* FS GS RS US and the space *)
   || (c =? 133) || (c =? 160)        (* NEL, no-break space *)
   || (c =? 5760)                     (* U+1680 *)
   || (8192 <=? c) && (c <=? 8202)    (* U+2000 .. U+200A *)
   || (c =? 8232) || (c =? 8233)      (* U+2028, U+2029 *)
   || (c =? 8239) || (c =? 8287)      (* U+202F, U+205F *)
   || (c =? 12288))%N.                (* U+3000 *)

(** [s.rstrip()]: [s] without its longest suffix of whitespace. *)
Fixpoint rstrip (s : str) : str :=
  match s with
  | [] => []
  | c :: s' =>
      match rstrip s' with
      | [] => if isspace c then [] else [c]
      | r => c :: r
      end
  end.

(** A [float] is an IEEE 754 binary64 number, in the Standard Library's
    specification of floats ([prec = 53], [emax = 1024]).  The handler
    passes floats along and never computes with them. *)
Definition float : Type := spec_float.

Inductive value : Type :=
| VNone
| VInt (n : Z)
| VStr (s : str)
| VList (l : list value)
| VDict (d : gmap string value).

Abbreviation dict := (gmap string value).

Inductive exn : Type :=
| KeyError (key : string)
| TypeError
| ValidationError
| BackendError (name : string).

Inductive result (A : Type) : Type :=
| Ok (a : A)
| Raise (e : exn).
Arguments Ok {A} a.
Arguments Raise {A} e.

#[export] Instance result_ret : MRet result := @Ok.
#[export] Instance result_bind : MBind result := fun A B f m =>
  match m with
  | Ok a => f a
  | Raise e => Raise e
  end.

(** [d[k]] on a dictionary. *)
Definition getitem (d : dict) (k : string) : result value :=
  match d !! k with
  | Some v => Ok v
  | None => Raise (KeyError k)
  end.

(** [v[k]] on any value: only a dictionary can be indexed by a [str]. *)
Definition subscript (v : value) (k : string) : result value :=
  match v with
  | VDict d => getitem d k
  | _ => Raise TypeError
  end.

(** [k in d]. *)
Definition contains (k : string) (d : dict) : bool :=
  bool_decide (is_Some (d !! k)).

(** [sep.join(items)] for the empty separator: every item must be a
    [str]. *)
Fixpoint join (items : list value) : result str :=
  match items with
  | [] => Ok []
  | VStr s :: items' => rest ← join items'; Ok (s ++ rest)
  | _ :: _ => Raise TypeError
  end.

End Py.
Import Py.

(** ** The handler and what a run can be observed to do *)

(** pydantic is not under src.  A field keeps a value that already has
    the type of the field.  What the library makes of a value of another
    type (it parses a numeric string given to an [int] field, converts an
    [int] given to a [float] field, refuses a dictionary, ...) depends on
    its version and mode and is a parameter here: the [str], [int] or
    [float] the field gets, or [None] when the value is refused. *)
Class Pydantic : Type := {
  lax_str : value -> option str;
  lax_int : value -> option Z;
  lax_float : value -> option float
}.

(** What the [price] field is given: a float, or a value of another
    type. *)
Inductive given : Type :=
| Float (f : float)
| Other (v : value).

Section Stream.

(** [W] is the caller's world: whatever state the two callbacks read and
    write. *)
Context {W : Type} {pydantic : Pydantic}.

(** [class OnStopInput(BaseModel)]. *)
Record OnStopInput : Type := {
  full_token : str;
  stop_reason : str;
  input_token_count : Z;
  output_token_count : Z;
  price : float
}.

(** The fields [str], [int] and [float] of a model. *)
Definition str_field (v : value) : option str :=
  match v with VStr s => Some s | _ => lax_str v end.
Definition int_field (v : value) : option Z :=
  match v with VInt n => Some n | _ => lax_int v end.
Definition float_field (x : given) : option float :=
  match x with Float f => Some f | Other v => lax_float v end.

(** The model validates every field when it is built and raises
    [ValidationError] when one of them refuses its value.  [full_token] is
    always given a [str]. *)
Definition OnStopInput_init (full_token : str) (stop_reason : value)
    (input_token_count output_token_count : value) (price : given)
  : result OnStopInput :=
  match str_field stop_reason, int_field input_token_count,
        int_field output_token_count, float_field price with
  | Some r, Some i, Some o, Some p =>
      Ok {| full_token := full_token; stop_reason := r;
            input_token_count := i; output_token_count := o;
            price := p |}
  | _, _, _, _ => Raise ValidationError
  end.

(** [class ConverseApiStreamHandler]: the model name and the two
    callbacks.  A callback acts on the world and returns a value of the
    caller's type [R]. *)
Record ConverseApiStreamHandler (R : Type) : Type := {
  model : string;
  on_stream : value -> W -> R * W;
  on_stop : OnStopInput -> W -> R * W
}.
Arguments model {R} _.
Arguments on_stream {R} _ _ _.
Arguments on_stop {R} _ _ _.

(** [from_model]: both callbacks are [lambda x: None]. *)
Definition from_model (model : string) : ConverseApiStreamHandler value :=
  {| model := model;
     on_stream := fun _ w => (VNone, w);
     on_stop := fun _ w => (VNone, w) |}.

(** [bind]: replaces both callbacks and returns the handler. *)
Definition bind {R R' : Type} (self : ConverseApiStreamHandler R)
    (on_stream : value -> W -> R' * W) (on_stop : OnStopInput -> W -> R' * W)
  : ConverseApiStreamHandler R' :=
  {| model := model self; on_stream := on_stream; on_stop := on_stop |}.

(** What the logger is given. *)
Inductive level : Type := DEBUG | INFO | ERROR.

Inductive message : Type :=
| ArgsForConverseStream (args : dict)      (* "args for converse_stream: {args}" *)
| Error (e : exn)                          (* "Error: {e}" *)
| Event (event : dict)                     (* "event: {event}" *)
| EventOfConverseStream (event : dict).    (* "event of converse_stream: {event}" *)

(** [logger.setLevel(logging.INFO)]: the records the module's logger lets
    through. *)
Definition logger_emits (lvl : level) : bool :=
  match lvl with
  | DEBUG => false
  | INFO | ERROR => true
  end.

(** The observable actions of a run, in program order. *)
Inductive action (R : Type) : Type :=
| Log (lvl : level) (msg : message)
| ConverseStream (kwargs : dict)
| OnStream (text : value) (response : R)
| OnStop (summary : OnStopInput) (response : R)
| Yield (response : R).
Arguments Log {R} lvl msg.
Arguments ConverseStream {R} kwargs.
Arguments OnStream {R} text response.
Arguments OnStop {R} summary response.
Arguments Yield {R} response.

(** The monad of the generator body. *)
Definition M (R A : Type) : Type := W -> list (action R) * W * result A.

#[export] Instance M_ret {R} : MRet (M R) := fun A a w => ([], w, Ok a).
#[export] Instance M_bind {R} : MBind (M R) := fun A B f m w =>
  match m w with
  | (t, w', Ok a) => let '(t', w'', r) := f a w' in (t ++ t', w'', r)
  | (t, w', Raise e) => (t, w', Raise e)
  end.

Definition emit {R} (a : action R) : M R unit := fun w => ([a], w, Ok tt).
Definition raise {R A} (e : exn) : M R A := fun w => ([], w, Raise e).
Definition lift {R A} (r : result A) : M R A := fun w => ([], w, r).

(** [try: body except Exception as e: handler(e)]. *)
Definition try_except {R A} (body : M R A) (handler : exn -> M R A) : M R A :=
  fun w =>
    match body w with
    | (t, w', Ok a) => (t, w', Ok a)
    | (t, w', Raise e) => let '(t', w'', r) := handler e w' in (t ++ t', w'', r)
    end.

Definition logger_debug {R} (msg : message) : M R unit := emit (Log DEBUG msg).
Definition logger_info {R} (msg : message) : M R unit := emit (Log INFO msg).
Definition logger_error {R} (msg : message) : M R unit := emit (Log ERROR msg).

(** [response = self.on_stream(text)]. *)
Definition call_on_stream {R} (self : ConverseApiStreamHandler R) (text : value)
  : M R R :=
  fun w => let '(r, w') := on_stream self text w in ([OnStream text r], w', Ok r).

(** [response = self.on_stop(summary)]. *)
Definition call_on_stop {R} (self : ConverseApiStreamHandler R)
    (summary : OnStopInput) : M R R :=
  fun w => let '(r, w') := on_stop self summary w in ([OnStop summary r], w', Ok r).

(** [yield response]. *)
Definition yield {R} (response : R) : M R unit := emit (Yield response).

(** The Bedrock runtime client of [app.utils]: [converse_stream] takes the
    keyword arguments and either raises or returns a response, of which
    the handler reads [response["stream"]], the events in the order the
    backend sends them. *)
Record Response : Type := { stream : list dict }.
Record BedrockRuntimeClient : Type := {
  converse_stream : dict -> result Response
}.

Variable get_bedrock_runtime_client : BedrockRuntimeClient.

(** The call of [client.converse_stream] with [base_args] as its keyword
    arguments. *)
Definition call_converse_stream {R} (client : BedrockRuntimeClient)
    (base_args : dict) : M R Response :=
  fun w => ([ConverseStream base_args], w, converse_stream client base_args).

(** [calculate_price] of [app.bedrock] is not under src and is a parameter
    here: a pure function, as the spec has it, from the model name and the
    two token counts to a monetary amount, which is a Python [float], the
    type of the field it fills. *)
Variable calculate_price : string -> Z -> Z -> float.

(** The call [calculate_price(self.model, input_token_count,
    output_token_count)]: the function computes with the counts, which
    must be [int]s. *)
Definition call_calculate_price (model : string)
    (input_token_count output_token_count : value) : result float :=
  match input_token_count, output_token_count with
  | VInt i, VInt o => Ok (calculate_price model i o)
  | _, _ => Raise TypeError
  end.

(** The keyword arguments built in the [try] block of [run]. *)
Definition base_args (args : dict) : result dict :=
  model_id ← getitem args "model_id";
  messages ← getitem args "messages";
  inference_config ← getitem args "inference_config";
  system ← getitem args "system";
  additional ← getitem args "additional_model_request_fields";
  let base_args : dict :=
    <["additionalModelRequestFields" := additional]>
    (<["system" := system]>
    (<["inferenceConfig" := inference_config]>
    (<["messages" := messages]>
    (<["modelId" := model_id]> ∅)))) in
  if contains "guardrailConfig" args then
    guardrail ← getitem args "guardrailConfig";
    Ok (<["guardrailConfig" := guardrail]> base_args)
  else Ok base_args.

(** The [try] block of [run]: build the arguments, log them, call the
    backend; any exception is logged and raised again. *)
Definition open_stream {R} (args : dict) : M R Response :=
  let client := get_bedrock_runtime_client in
  try_except
    (base_args ← lift (base_args args);
     _ ← logger_info (ArgsForConverseStream args);
     call_converse_stream client base_args)
    (fun e => _ ← logger_error (Error e); raise e).

(** The locals of the loop: [completions] and [stop_reason]. *)
Abbreviation locals := (list value * value)%type.

(** One iteration of [for event in response["stream"]]. *)
Definition handle_event {R} (self : ConverseApiStreamHandler R) (event : dict)
    (st : locals) : M R locals :=
  let '(completions, stop_reason) := st in
  if contains "contentBlockDelta" event then
    _ ← logger_debug (Event event);
    text ← lift (cbd ← getitem event "contentBlockDelta";
                 delta ← subscript cbd "delta";
                 subscript delta "text");
    let completions := completions ++ [text] in
    response ← call_on_stream self text;
    _ ← yield response;
    mret (completions, stop_reason)
  else if contains "messageStop" event then
    _ ← logger_debug (Event event);
    stop_reason ← lift (ms ← getitem event "messageStop";
                        subscript ms "stopReason");
    mret (completions, stop_reason)
  else if contains "metadata" event then
    _ ← logger_debug (Event event);
    metadata ← lift (getitem event "metadata");
    usage ← lift (subscript metadata "usage");
    input_token_count ← lift (subscript usage "inputTokens");
    output_token_count ← lift (subscript usage "outputTokens");
    price ← lift (call_calculate_price (model self)
                    input_token_count output_token_count);
    concatenated ← lift (join completions);
    summary ← lift (OnStopInput_init (rstrip concatenated) stop_reason
                      input_token_count output_token_count (Float price));
    response ← call_on_stop self summary;
    _ ← logger_info (EventOfConverseStream event);
    _ ← yield response;
    mret (completions, stop_reason)
  else mret (completions, stop_reason).

(** The [for] loop, from the given locals.  It returns the locals it ends
    with (variables of [run] in the source), so that they can be spoken
    of. *)
Fixpoint loop {R} (self : ConverseApiStreamHandler R) (events : list dict)
    (st : locals) : M R locals :=
  match events with
  | [] => mret st
  | event :: events' =>
      st' ← handle_event self event st;
      loop self events' st'
  end.

(** [run], consumed to its end.  It is a generator: nothing of the body
    runs before the first element is asked for, and each [yield] hands one
    element to the consumer; the trace keeps the yields in their place
    among the other actions.  The generator itself returns nothing. *)
Definition run {R} (self : ConverseApiStreamHandler R) (args : dict) : M R unit :=
  response ← open_stream args;
  let completions : list value := [] in
  let stop_reason : value := VStr [] in
  _ ← loop self (stream response) (completions, stop_reason);
  mret tt.

End Stream.

Arguments Log {R} lvl msg.
Arguments ConverseStream {R} kwargs.
Arguments OnStream {R} text response.
Arguments OnStop {R} summary response.
Arguments Yield {R} response.
Arguments model {W R} _.
Arguments on_stream {W R} _ _ _.
Arguments on_stop {W R} _ _ _.

(** Unfolds the monad operations of the loop body and computes. *)
Ltac run_body :=
  unfold mbind, M_bind, logger_debug, logger_info, emit, lift, yield,
    call_on_stream, call_on_stop, mret, M_ret; simpl.

(** ** The events of the stream, as the spec names them *)

(** The three variants the handler reacts to, and [Ignored] for a
    dictionary with none of the three keys (message start, content block
    start and stop): the loop passes over it. *)
Inductive StreamEvent : Type :=
| ContentDelta (text : str)
| MessageStop (stopReason : str)
| Metadata (inputTokens outputTokens : Z)
| Ignored.

(** [v[k]] when it succeeds. *)
Definition field (v : value) (k : string) : option value :=
  match v with VDict d => d !! k | _ => None end.

(** Which variant a dictionary of the stream is, with the precedence of
    the [if]/[elif] chain of [run]; [None] for a dictionary that has one of
    the keys but not the fields (or not the field types) of its variant. *)
Definition classify (event : dict) : option StreamEvent :=
  match event !! "contentBlockDelta", event !! "messageStop",
        event !! "metadata" with
  | Some cbd, _, _ =>
      match field cbd "delta" with
      | Some delta =>
          match field delta "text" with
          | Some (VStr text) => Some (ContentDelta text)
          | _ => None
          end
      | None => None
      end
  | None, Some ms, _ =>
      match field ms "stopReason" with
      | Some (VStr reason) => Some (MessageStop reason)
      | _ => None
      end
  | None, None, Some metadata =>
      match field metadata "usage" with
      | Some usage =>
          match field usage "inputTokens", field usage "outputTokens" with
          | Some (VInt i), Some (VInt o) => Some (Metadata i o)
          | _, _ => None
          end
      | None => None
      end
  | None, None, None => Some Ignored
  end.

(** The events of a whole stream. *)
Definition classify_all (events : list dict) : option (list StreamEvent) :=
  mapM classify events.

(** The texts of the [ContentDelta] events, in order. *)
Definition texts (evs : list StreamEvent) : list str :=
  omap (fun ev => match ev with ContentDelta t => Some t | _ => None end) evs.

(** The token counts of the [Metadata] events, in order. *)
Definition usages (evs : list StreamEvent) : list (Z * Z) :=
  omap (fun ev => match ev with Metadata i o => Some (i, o) | _ => None end) evs.

Definition is_metadata (ev : StreamEvent) : bool :=
  match ev with Metadata _ _ => true | _ => false end.
Definition is_message_stop (ev : StreamEvent) : bool :=
  match ev with MessageStop _ => true | _ => false end.
Definition is_content_delta (ev : StreamEvent) : bool :=
  match ev with ContentDelta _ => true | _ => false end.

(** An event that is neither a [ContentDelta] nor a [Metadata]. *)
Definition quiet (ev : StreamEvent) : bool :=
  negb (is_content_delta ev || is_metadata ev).

(** What the [try] block of [run] comes to, logging apart: the response
    of the backend, or the exception of building the arguments or of the
    call. *)
Definition backend_answer (client : BedrockRuntimeClient) (args : dict)
  : result Response :=
  kw ← base_args args; converse_stream client kw.

(** The stop reason in force after the events [evs], from [sr]. *)
Definition last_stop_reason (sr : str) (evs : list StreamEvent) : str :=
  foldl (fun sr ev => match ev with MessageStop r => r | _ => sr end) sr evs.

(** The summaries the spec expects for the events [evs], when [ts] are the
    fragments received before them and [sr] is the stop reason then in
    force: one per [Metadata] event, with the text joined and right-trimmed,
    the last stop reason, the counts of the event and their price. *)
Fixpoint expected_summaries
    (calculate_price : string -> Z -> Z -> float) (model : string)
    (ts : list str) (sr : str) (evs : list StreamEvent)
  : list OnStopInput :=
  match evs with
  | [] => []
  | ContentDelta t :: evs' =>
      expected_summaries calculate_price model (ts ++ [t]) sr evs'
  | MessageStop r :: evs' =>
      expected_summaries calculate_price model ts r evs'
  | Metadata i o :: evs' =>
      {| full_token := rstrip (concat ts); stop_reason := sr;
         input_token_count := i; output_token_count := o;
         price := calculate_price model i o |}
      :: expected_summaries calculate_price model ts sr evs'
  | Ignored :: evs' =>
      expected_summaries calculate_price model ts sr evs'
  end.

(** ** Reading a trace *)

Section Trace.
Context {W R : Type} {pydantic : Pydantic}.
Implicit Types (t : list (@action R)).

(** The arguments of the [on_stream] invocations, in order. *)
Definition on_stream_calls t : list value :=
  omap (fun a => match a with OnStream text _ => Some text | _ => None end) t.

(** The arguments of the [on_stop] invocations, in order. *)
Definition on_stop_calls t : list (OnStopInput) :=
  omap (fun a => match a with OnStop s _ => Some s | _ => None end) t.

(** The elements the generator produces, in order. *)
Definition yields t : list R :=
  omap (fun a => match a with Yield r => Some r | _ => None end) t.

(** The keyword arguments of the backend calls. *)
Definition backend_calls t : list dict :=
  omap (fun a => match a with ConverseStream kw => Some kw | _ => None end) t.

Definition is_log (a : @action R) : bool :=
  match a with Log _ _ => true | _ => false end.

(** [relayed self w t w']: read from the world [w], the trace [t] leaves
    the world [w'], every callback invocation in it carries what the
    callback returns in the world it is invoked in, and that value is
    yielded before anything else is invoked: at once for [on_stream],
    after the closing log record for [on_stop].  Nothing else is yielded. *)
Inductive relayed (self : @ConverseApiStreamHandler W R)
  : W -> list (@action R) -> W -> Prop :=
| relayed_nil w : relayed self w [] w
| relayed_log w lvl msg t w' :
    relayed self w t w' -> relayed self w (Log lvl msg :: t) w'
| relayed_backend_call w kwargs t w' :
    relayed self w t w' -> relayed self w (ConverseStream kwargs :: t) w'
| relayed_on_stream w text r w1 t w' :
    on_stream self text w = (r, w1) ->
    relayed self w1 t w' ->
    relayed self w (OnStream text r :: Yield r :: t) w'
| relayed_on_stop w summary r w1 msg t w' :
    on_stop self summary w = (r, w1) ->
    relayed self w1 t w' ->
    relayed self w (OnStop summary r :: Log INFO msg :: Yield r :: t) w'.

End Trace.

(** ** A concrete stream *)

Module Sample.

Definition py : string -> str := Py.of_string.

Definition content_delta (text : string) : dict :=
  {[ "contentBlockDelta" :=
       VDict (<["contentBlockIndex" := VInt 0]>
              {[ "delta" := VDict {[ "text" := VStr (py text) ]} ]}) ]}.

Definition message_stop (reason : string) : dict :=
  {[ "messageStop" := VDict {[ "stopReason" := VStr (py reason) ]} ]}.

Definition metadata (i o : Z) : dict :=
  {[ "metadata" :=
       VDict (<["metrics" := VDict {[ "latencyMs" := VInt 120 ]}]>
              {[ "usage" := VDict (<["inputTokens" := VInt i]>
                                   (<["outputTokens" := VInt o]>
                                    {[ "totalTokens" := VInt (i + o) ]})) ]}) ]}.

Definition message_start : dict :=
  {[ "messageStart" := VDict {[ "role" := VStr (py "assistant") ]} ]}.

(** A stream as Bedrock sends it. *)
Definition conversation : list dict :=
  [message_start; content_delta "Hi"; content_delta " there";
   message_stop "end_turn"; metadata 5 2].

Definition conversation_events : list StreamEvent :=
  [Ignored; ContentDelta (py "Hi"); ContentDelta (py " there");
   MessageStop (py "end_turn"); Metadata 5 2].

(** A request with the five required keys and no guardrail. *)
Definition args : dict :=
  <["model_id" := VStr (py "anthropic.claude-3-haiku")]>
  (<["messages" := VList [VDict {[ "role" := VStr (py "user") ]}]]>
  (<["inference_config" := VDict {[ "maxTokens" := VInt 512 ]}]>
  (<["system" := VList []]>
  {[ "additional_model_request_fields" := VDict {[ "top_k" := VInt 250 ]} ]}))).

(** The same request with a guardrail. *)
Definition guarded_args : dict :=
  <["guardrailConfig" := VDict {[ "guardrailIdentifier" := VStr (py "g1") ]}]> args.

(** The keyword arguments the handler is to pass for [args]. *)
Definition kwargs : dict :=
  <["modelId" := VStr (py "anthropic.claude-3-haiku")]>
  (<["messages" := VList [VDict {[ "role" := VStr (py "user") ]}]]>
  (<["inferenceConfig" := VDict {[ "maxTokens" := VInt 512 ]}]>
  (<["system" := VList []]>
  {[ "additionalModelRequestFields" := VDict {[ "top_k" := VInt 250 ]} ]}))).

(** And for [guarded_args]. *)
Definition guarded_kwargs : dict :=
  <["guardrailConfig" := VDict {[ "guardrailIdentifier" := VStr (py "g1") ]}]>
  kwargs.

(** A backend that answers every call with the given events. *)
Definition client (events : list dict) : BedrockRuntimeClient :=
  {| converse_stream := fun _ => Ok {| stream := events |} |}.

(** A backend that refuses every call. *)
Definition failing_client : BedrockRuntimeClient :=
  {| converse_stream := fun _ => Raise (BackendError "EndpointConnectionError") |}.

(** A float of binary64. *)
Definition binary64 (m e : Z) : float := binary_normalize 53 1024 m e false.

(** A price function: 0.00025 dollars for a thousand tokens read and
    0.00125 for a thousand written, computed in binary64. *)
Definition calculate_price (model : string) (i o : Z) : float :=
  SFadd 53 1024
    (SFdiv 53 1024 (SFmul 53 1024 (binary64 i 0)
                      (SFdiv 53 1024 (binary64 25 0) (binary64 100000 0)))
       (binary64 1000 0))
    (SFdiv 53 1024 (SFmul 53 1024 (binary64 o 0)
                      (SFdiv 53 1024 (binary64 125 0) (binary64 100000 0)))
       (binary64 1000 0)).

(** pydantic in its strict mode: a value of another type is refused. *)
#[export] Instance strict : Pydantic :=
  {| lax_str := fun _ => None;
     lax_int := fun _ => None;
     lax_float := fun _ => None |}.

(** A backend that answers only a call that carries a guardrail. *)
Definition guarded_client (events : list dict) : BedrockRuntimeClient :=
  {| converse_stream := fun kw =>
       if contains "guardrailConfig" kw then Ok {| stream := events |}
       else Raise (BackendError "ValidationException") |}.

(** A backend that answers only a call for the model of [args]. *)
Definition haiku_client (events : list dict) : BedrockRuntimeClient :=
  {| converse_stream := fun kw =>
       match kw !! "modelId" with
       | Some (VStr m) =>
           if decide (m = py "anthropic.claude-3-haiku")
           then Ok {| stream := events |}
           else Raise (BackendError "ResourceNotFoundException")
       | _ => Raise (BackendError "ParamValidationError")
       end |}.

(** The world counts the callback invocations; [on_stream] returns the
    text it was given, tagged with the count, [on_stop] the full text. *)
Definition handler : @ConverseApiStreamHandler nat (nat * value) :=
  {| model := "claude-v3-haiku";
     on_stream := fun text n => ((n, text), S n);
     on_stop := fun summary n => ((n, VStr (full_token summary)), S n) |}.

(** A handler that hands back what it was given, numbered by the world:
    the text for [on_stream], the whole summary for [on_stop]. *)
Definition probe : @ConverseApiStreamHandler nat (nat * (value + OnStopInput)) :=
  {| model := "claude-v3-haiku";
     on_stream := fun text n => ((n, inl text), S n);
     on_stop := fun summary n => ((n, inr summary), S n) |}.

End Sample.

(** ** Further readings of a request and of a trace *)

(** The keys [run] reads from the request unconditionally, in the order
    in which the dictionary display of [base_args] evaluates them. *)
Definition required_keys : list string :=
  ["model_id"; "messages"; "inference_config"; "system";
   "additional_model_request_fields"].

(** The first required key the request lacks. *)
Definition first_missing (args : dict) : option string :=
  List.find (fun k => negb (contains k args)) required_keys.

(** The key of the request a keyword of the backend call is read from;
    [None] for a keyword [run] never passes. *)
Definition forwarded_from (keyword : string) : option string :=
  if decide (keyword = "modelId") then Some "model_id"
  else if decide (keyword = "messages") then Some "messages"
  else if decide (keyword = "inferenceConfig") then Some "inference_config"
  else if decide (keyword = "system") then Some "system"
  else if decide (keyword = "additionalModelRequestFields")
       then Some "additional_model_request_fields"
  else if decide (keyword = "guardrailConfig") then Some "guardrailConfig"
  else None.

(** A dictionary of the stream that [run] handles as a [Metadata] event. *)
Definition is_metadata_event (event : dict) : bool :=
  match classify event with
  | Some (Metadata _ _) => true
  | _ => false
  end.

Section MoreTrace.
Context {R : Type}.

(** A record at error level. *)
Definition is_error_log (a : @action R) : bool :=
  match a with Log ERROR _ => true | _ => false end.

(** The records of a trace that the module's logger lets through. *)
Definition emitted (t : list (@action R)) : list (level * message) :=
  omap (fun a => match a with
                 | Log lvl msg => if logger_emits lvl then Some (lvl, msg) else None
                 | _ => None
                 end) t.

End MoreTrace.

Module Malformed.

(** A delta of a tool use: the [delta] has no [text]. *)
Definition tool_use_delta : dict :=
  {[ "contentBlockDelta" :=
       VDict (<["contentBlockIndex" := VInt 1]>
              {[ "delta" :=
                   VDict {[ "toolUse" :=
                              VDict {[ "input" := VStr (Py.of_string "{") ]} ]} ]}) ]}.

(** A request without [system]. *)
Definition args_without_system : dict := delete "system" Sample.args.

(** A request with a key [run] does not know. *)
Definition args_with_tools : dict :=
  <["toolConfig" := VDict ∅]> Sample.args.

(** A world that records what the callbacks were given. *)
Definition recorder : @ConverseApiStreamHandler (list value) nat :=
  {| model := "claude-v3-sonnet";
     on_stream := fun text seen => (length seen, seen ++ [text]);
     on_stop := fun summary seen =>
       (length seen, seen ++ [VStr (full_token summary)]) |}.

End Malformed.

(** Unfolds one iteration of the loop down to its matches. *)
Ltac open_body :=
  unfold handle_event, getitem, mbind, M_bind, logger_debug, logger_info,
    emit, lift, yield, call_on_stream, call_on_stop, mret, M_ret.

(** ** Facts about the Python primitives *)

Lemma rstrip_whitespace (s : str) : forallb isspace s = true -> rstrip s = [].
Proof.
  induction s as [|c s IH]; simpl; [done|].
  intros [Hc Hs]%andb_prop. by rewrite (IH Hs), Hc.
Qed.

Lemma rstrip_split (s : str) :
  exists ws, s = rstrip s ++ ws /\ forallb isspace ws = true.
Proof.
  induction s as [|c s (ws & Hs & Hws)]; simpl.
  - by exists [].
  - destruct (rstrip s) as [|c' r] eqn:Hr.
    + destruct (isspace c) eqn:Hc.
      * exists (c :: s). split; [done|]. simpl in *. rewrite Hc.
        by rewrite Hs.
      * exists s. split; [done|]. by rewrite Hs.
    + exists ws. split; [|done]. simpl. by rewrite Hs at 1.
Qed.

Lemma rstrip_last (s : str) c : last (rstrip s) = Some c -> isspace c = false.
Proof.
  revert c. induction s as [|a s IH]; simpl; [done|]. intros c.
  destruct (rstrip s) as [|c' r] eqn:Hr.
  - destruct (isspace a) eqn:Ha; simpl; [done|]. by intros [= <-].
  - intros H. apply IH. by rewrite last_cons_cons in H.
Qed.

Lemma rstrip_keeps (s : str) c ws :
  isspace c = false -> forallb isspace ws = true ->
  rstrip (s ++ c :: ws) = s ++ [c].
Proof.
  intros Hc Hws. induction s as [|a s IH]; simpl.
  - by rewrite (rstrip_whitespace _ Hws), Hc.
  - rewrite IH. by destruct s.
Qed.

Lemma join_strs (ts : list str) : join (VStr <$> ts) = Ok (concat ts).
Proof.
  induction ts as [|t ts IH]; [done|].
  rewrite fmap_cons. cbn [join]. by rewrite IH.
Qed.

Lemma contains_Some (d : dict) k v : d !! k = Some v -> contains k d = true.
Proof. intros H. unfold contains. by rewrite H. Qed.

Lemma contains_None (d : dict) k : d !! k = None -> contains k d = false.
Proof. intros H. unfold contains. by rewrite H. Qed.

Lemma field_subscript v k x : field v k = Some x -> subscript v k = Ok x.
Proof. destruct v; simpl; try discriminate. unfold getitem. by intros ->. Qed.

(** ** What [classify] says about the dictionary *)

Lemma classify_ContentDelta event text :
  classify event = Some (ContentDelta text) ->
  exists cbd delta,
    event !! "contentBlockDelta" = Some cbd /\
    field cbd "delta" = Some delta /\
    field delta "text" = Some (VStr text).
Proof. unfold classify. intros H. repeat case_match; simplify_eq. eauto. Qed.

Lemma classify_MessageStop event reason :
  classify event = Some (MessageStop reason) ->
  event !! "contentBlockDelta" = None /\
  exists ms,
    event !! "messageStop" = Some ms /\
    field ms "stopReason" = Some (VStr reason).
Proof. unfold classify. intros H. repeat case_match; simplify_eq. eauto. Qed.

Lemma classify_Metadata event i o :
  classify event = Some (Metadata i o) ->
  event !! "contentBlockDelta" = None /\
  event !! "messageStop" = None /\
  exists metadata usage,
    event !! "metadata" = Some metadata /\
    field metadata "usage" = Some usage /\
    field usage "inputTokens" = Some (VInt i) /\
    field usage "outputTokens" = Some (VInt o).
Proof.
  unfold classify. intros H. repeat case_match; simplify_eq.
  repeat split; eauto 10.
Qed.

Lemma classify_Ignored event :
  classify event = Some Ignored ->
  event !! "contentBlockDelta" = None /\
  event !! "messageStop" = None /\
  event !! "metadata" = None.
Proof. unfold classify. intros H. repeat case_match; simplify_eq. eauto. Qed.

(** ** One iteration of the loop, by variant *)

Section Steps.
Context {W R : Type} {pydantic : Pydantic}.
Variable calculate_price : string -> Z -> Z -> float.
Implicit Types (self : @ConverseApiStreamHandler W R).
Implicit Types (event : dict) (w : W) (cs : list value) (sr : value).

Lemma handle_event_ContentDelta self event text cs sr w :
  classify event = Some (ContentDelta text) ->
  handle_event calculate_price self event (cs, sr) w =
    let '(r, w') := on_stream self (VStr text) w in
    ([Log DEBUG (Event event); OnStream (VStr text) r; Yield r], w',
     Ok (cs ++ [VStr text], sr)).
Proof.
  intros (cbd & delta & Hcbd & Hdelta & Htext)%classify_ContentDelta.
  unfold handle_event. rewrite (contains_Some _ _ _ Hcbd).
  unfold getitem. rewrite Hcbd. simpl.
  rewrite (field_subscript _ _ _ Hdelta). simpl.
  rewrite (field_subscript _ _ _ Htext). run_body.
  by destruct (on_stream self (VStr text) w).
Qed.

Lemma handle_event_MessageStop self event reason cs sr w :
  classify event = Some (MessageStop reason) ->
  handle_event calculate_price self event (cs, sr) w =
    ([Log DEBUG (Event event)], w, Ok (cs, VStr reason)).
Proof.
  intros (Hcbd & ms & Hms & Hreason)%classify_MessageStop.
  unfold handle_event.
  rewrite (contains_None _ _ Hcbd), (contains_Some _ _ _ Hms).
  unfold getitem. rewrite Hms. simpl.
  rewrite (field_subscript _ _ _ Hreason). by run_body.
Qed.

Lemma handle_event_Metadata self event i o ts reason w :
  classify event = Some (Metadata i o) ->
  handle_event calculate_price self event (VStr <$> ts, VStr reason) w =
    let summary :=
      {| full_token := rstrip (concat ts); stop_reason := reason;
         input_token_count := i; output_token_count := o;
         price := calculate_price (model self) i o |} in
    let '(r, w') := on_stop self summary w in
    ([Log DEBUG (Event event); OnStop summary r;
      Log INFO (EventOfConverseStream event); Yield r], w',
     Ok (VStr <$> ts, VStr reason)).
Proof.
  intros (Hcbd & Hms & md & usage & Hmd & Husage & Hi & Ho)%classify_Metadata.
  unfold handle_event.
  rewrite (contains_None _ _ Hcbd), (contains_None _ _ Hms),
    (contains_Some _ _ _ Hmd).
  unfold getitem. rewrite Hmd. run_body.
  rewrite (field_subscript _ _ _ Husage). simpl.
  rewrite (field_subscript _ _ _ Hi). simpl.
  rewrite (field_subscript _ _ _ Ho). simpl.
  rewrite join_strs. simpl.
  by destruct (on_stop self _ w).
Qed.

Lemma handle_event_Ignored self event cs sr w :
  classify event = Some Ignored ->
  handle_event calculate_price self event (cs, sr) w = ([], w, Ok (cs, sr)).
Proof.
  intros (Hcbd & Hms & Hmd)%classify_Ignored.
  unfold handle_event.
  by rewrite (contains_None _ _ Hcbd), (contains_None _ _ Hms),
    (contains_None _ _ Hmd).
Qed.

(** The loop over [pre ++ post] is the loop over [pre], then the loop over
    [post] from the locals and the world the first one leaves. *)
Lemma loop_app self (pre post : list dict) st w :
  loop calculate_price self (pre ++ post) st w =
    match loop calculate_price self pre st w with
    | (t, w', Ok st') =>
        let '(t', w'', r) := loop calculate_price self post st' w' in
        (t ++ t', w'', r)
    | (t, w', Raise e) => (t, w', Raise e)
    end.
Proof.
  revert st w. induction pre as [|event pre IH]; intros st w; simpl.
  - unfold mret, M_ret. simpl.
    by destruct (loop calculate_price self post st w) as [[??]?].
  - unfold mbind, M_bind.
    destruct (handle_event calculate_price self event st w) as [[t w'] [st'|e]];
      [|done].
    fold (@loop W pydantic calculate_price R). rewrite IH.
    destruct (loop calculate_price self pre st' w') as [[t1 w1] [st1|e]];
      [|done].
    destruct (loop calculate_price self post st1 w1) as [[t2 w2] r].
    by rewrite app_assoc.
Qed.

End Steps.

(** ** The loop over a stream of well-formed events *)

Section Loop.
Context {W R : Type} {pydantic : Pydantic}.
Variable calculate_price : string -> Z -> Z -> float.
Implicit Types (self : @ConverseApiStreamHandler W R).
Implicit Types (event : dict) (w : W) (ts : list str) (sr : str).

Lemma classify_all_Forall2 (events : list dict) (evs : list StreamEvent) :
  classify_all events = Some evs ->
  Forall2 (fun event ev => classify event = Some ev) events evs.
Proof. unfold classify_all. by rewrite mapM_Some. Qed.

(** From locals that hold [str] fragments and a [str] stop reason, the
    loop over classified events runs to its end, leaves the fragments of
    the [ContentDelta] events appended in order and the last stop reason,
    invokes [on_stream] on exactly those fragments, [on_stop] on the
    expected summaries, and relays every return value. *)
Lemma loop_classified self (events : list dict) (evs : list StreamEvent) ts sr w :
  Forall2 (fun event ev => classify event = Some ev) events evs ->
  exists t w',
    loop calculate_price self events (VStr <$> ts, VStr sr) w =
      (t, w', Ok (VStr <$> (ts ++ texts evs), VStr (last_stop_reason sr evs))) /\
    on_stream_calls t = VStr <$> texts evs /\
    on_stop_calls t = expected_summaries calculate_price (model self) ts sr evs /\
    backend_calls t = [] /\
    relayed self w t w'.
Proof.
  intros Hall. revert ts sr w.
  induction Hall as [|event ev events evs Hev _ IH]; intros ts sr w.
  - exists [], w. rewrite app_nil_r. repeat split; constructor.
  - cbn [loop]. unfold mbind, M_bind. destruct ev as [text|reason|i o|].
    + rewrite (handle_event_ContentDelta _ _ _ _ _ _ _ Hev).
      destruct (on_stream self (VStr text) w) as [r w1] eqn:Hr.
      destruct (IH (ts ++ [text]) sr w1) as (t & w' & Hloop & Hs & Hp & Hb & Hrel).
      rewrite fmap_app in Hloop. cbn [fmap list_fmap] in Hloop.
      fold (@loop W pydantic calculate_price R). rewrite Hloop.
      eexists _, w'. split; [|split; [|split; [|split]]].
      * change (texts (ContentDelta text :: evs)) with (text :: texts evs).
        by rewrite <- app_assoc.
      * change (VStr text :: on_stream_calls t =
                VStr text :: (VStr <$> texts evs)).
        by rewrite Hs.
      * apply Hp.
      * apply Hb.
      * constructor. by eapply relayed_on_stream.
    + rewrite (handle_event_MessageStop _ _ _ _ _ _ _ Hev).
      destruct (IH ts reason w) as (t & w' & Hloop & Hs & Hp & Hb & Hrel).
      fold (@loop W pydantic calculate_price R). rewrite Hloop.
      eexists _, w'. split; [|split; [|split; [|split]]]; try done.
      by constructor.
    + rewrite (handle_event_Metadata _ _ _ _ _ _ _ _ Hev). cbv zeta.
      destruct (on_stop self _ w) as [r w1] eqn:Hr.
      destruct (IH ts sr w1) as (t & w' & Hloop & Hs & Hp & Hb & Hrel).
      fold (@loop W pydantic calculate_price R). rewrite Hloop.
      eexists _, w'. split; [|split; [|split; [|split]]]; try done.
      * cbn [expected_summaries]. rewrite <- Hp. reflexivity.
      * constructor. by eapply relayed_on_stop.
    + rewrite (handle_event_Ignored _ _ _ _ _ _ Hev).
      destruct (IH ts sr w) as (t & w' & Hloop & Hs & Hp & Hb & Hrel).
      fold (@loop W pydantic calculate_price R). rewrite Hloop.
      by eexists _, w'.
Qed.

(** Over quiet events the loop only writes log records and leaves the
    world alone. *)
Lemma loop_quiet self (events : list dict) (evs : list StreamEvent) st w :
  Forall2 (fun event ev => classify event = Some ev) events evs ->
  forallb quiet evs = true ->
  exists t st',
    loop calculate_price self events st w = (t, w, Ok st') /\
    forallb is_log t = true.
Proof.
  intros Hall. revert st.
  induction Hall as [|event ev events evs Hev _ IH]; intros [cs sr] Hq.
  - by exists [], (cs, sr).
  - cbn in Hq. apply andb_prop in Hq as [Hq1 Hq].
    cbn [loop]. unfold mbind, M_bind. destruct ev as [text|reason|i o|]; try done.
    + rewrite (handle_event_MessageStop _ _ _ _ _ _ _ Hev).
      destruct (IH (cs, VStr reason) Hq) as (t & st' & Hloop & Hlog).
      fold (@loop W pydantic calculate_price R). rewrite Hloop.
      by eexists _, st'.
    + rewrite (handle_event_Ignored _ _ _ _ _ _ Hev).
      destruct (IH (cs, sr) Hq) as (t & st' & Hloop & Hlog).
      fold (@loop W pydantic calculate_price R). rewrite Hloop.
      by eexists _, st'.
Qed.

(** Whatever the events are, the loop never calls the backend. *)
Lemma handle_event_no_backend_call self event st w :
  backend_calls (handle_event calculate_price self event st w).1.1 = [].
Proof.
  destruct st as [cs sr]. unfold handle_event, getitem.
  unfold mbind, M_bind, logger_debug, logger_info, emit, lift, yield,
    call_on_stream, call_on_stop, mret, M_ret.
  repeat (case_match; simplify_eq; simpl in * ); done.
Qed.

Lemma loop_no_backend_call self (events : list dict) st w :
  backend_calls (loop calculate_price self events st w).1.1 = [].
Proof.
  revert st w. induction events as [|event events IH]; intros st w; [done|].
  cbn [loop]. unfold mbind, M_bind.
  pose proof (handle_event_no_backend_call self event st w) as Hh.
  destruct (handle_event calculate_price self event st w) as [[t w'] [st'|e]];
    [|done].
  fold (@loop W pydantic calculate_price R).
  specialize (IH st' w').
  destruct (loop calculate_price self events st' w') as [[t' w''] r].
  simpl in *. unfold backend_calls in *. by rewrite omap_app, Hh, IH.
Qed.

End Loop.

(** ** The expected summaries *)

Section Summaries.
Variable calculate_price : string -> Z -> Z -> float.
Implicit Types (ts : list str) (sr : str) (evs pre post : list StreamEvent).

Lemma texts_app pre post : texts (pre ++ post) = texts pre ++ texts post.
Proof. apply omap_app. Qed.

Lemma usages_app pre post : usages (pre ++ post) = usages pre ++ usages post.
Proof. apply omap_app. Qed.

Lemma usages_length evs : length (usages evs) = length (filter is_metadata evs).
Proof. induction evs as [|[] evs IH]; simpl; auto. Qed.

Lemma usages_no_metadata evs :
  forallb (fun ev => negb (is_metadata ev)) evs = true -> usages evs = [].
Proof.
  induction evs as [|ev evs IH]; [done|]. simpl.
  intros [Hev Hevs]%andb_prop. destruct ev; try done; by apply IH.
Qed.

Lemma texts_deltas ts : texts (ContentDelta <$> ts) = ts.
Proof.
  induction ts as [|t ts IH]; [done|]. rewrite fmap_cons.
  change (t :: texts (ContentDelta <$> ts) = t :: ts). by rewrite IH.
Qed.

Lemma usages_deltas ts : usages (ContentDelta <$> ts) = [].
Proof. by induction ts. Qed.

Lemma last_stop_reason_deltas sr ts : last_stop_reason sr (ContentDelta <$> ts) = sr.
Proof. by induction ts. Qed.

Lemma last_stop_reason_no_stop sr evs :
  forallb (fun ev => negb (is_message_stop ev)) evs = true ->
  last_stop_reason sr evs = sr.
Proof.
  induction evs as [|ev evs IH]; [done|]. simpl.
  intros [Hev Hevs]%andb_prop. destruct ev; try done; by apply IH.
Qed.

Lemma expected_summaries_app model ts sr pre post :
  expected_summaries calculate_price model ts sr (pre ++ post) =
    expected_summaries calculate_price model ts sr pre ++
    expected_summaries calculate_price model (ts ++ texts pre)
      (last_stop_reason sr pre) post.
Proof.
  revert ts sr. induction pre as [|ev pre IH]; intros ts sr.
  - simpl. by rewrite app_nil_r.
  - destruct ev as [t|r|i o|]; simpl; rewrite IH; try done.
    by rewrite <- app_assoc.
Qed.

(** One summary per [Metadata] event, with its counts and their price. *)
Lemma expected_summaries_usages model ts sr evs :
  (fun s => (input_token_count s, output_token_count s, price s))
    <$> expected_summaries calculate_price model ts sr evs =
  (fun io => (io.1, io.2, calculate_price model io.1 io.2)) <$> usages evs.
Proof.
  revert ts sr. induction evs as [|ev evs IH]; intros ts sr; [done|].
  destruct ev as [t|r|i o|]; simpl; try apply IH.
  f_equal. apply IH.
Qed.

Lemma expected_summaries_length model ts sr evs :
  length (expected_summaries calculate_price model ts sr evs) =
  length (usages evs).
Proof.
  pose proof (f_equal length (expected_summaries_usages model ts sr evs)) as H.
  by rewrite !length_fmap in H.
Qed.

End Summaries.

(** ** The [try] block and the whole run *)

Section Run.
Context {W R : Type} {pydantic : Pydantic}.
Variable client : BedrockRuntimeClient.
Variable calculate_price : string -> Z -> Z -> float.
Implicit Types (self : @ConverseApiStreamHandler W R).
Implicit Types (args kw : dict) (w : W) (t : list (@action R)).

(** The guardrail field of the keyword arguments is the one of the
    request: the same value when the request has one, absent otherwise. *)
Lemma base_args_guardrail args kw :
  base_args args = Ok kw ->
  kw !! "guardrailConfig" = args !! "guardrailConfig".
Proof.
  unfold base_args, contains, getitem.
  destruct (args !! "model_id"); [|done].
  destruct (args !! "messages"); [|done].
  destruct (args !! "inference_config"); [|done].
  destruct (args !! "system"); [|done].
  destruct (args !! "additional_model_request_fields"); [|done].
  simpl. destruct (args !! "guardrailConfig") as [g|]; simpl.
  - intros [= <-]. by rewrite lookup_insert_eq.
  - intros [= <-]. by rewrite !lookup_insert_ne, lookup_empty.
Qed.

Lemma yields_app t t' : yields (t ++ t') = yields t ++ yields t'.
Proof. apply omap_app. Qed.

Lemma logs_are_silent t :
  forallb is_log t = true ->
  on_stream_calls t = [] /\ on_stop_calls t = [] /\ yields t = [].
Proof.
  induction t as [|a t IH]; [done|]. simpl.
  intros [Ha Ht]%andb_prop. destruct a; try done. by apply IH.
Qed.

Lemma open_stream_backend_answer args w :
  @open_stream W client R args w =
    match base_args args with
    | Ok kw =>
        match converse_stream client kw with
        | Ok response =>
            ([Log INFO (ArgsForConverseStream args); ConverseStream kw], w,
             Ok response)
        | Raise e =>
            ([Log INFO (ArgsForConverseStream args); ConverseStream kw;
              Log ERROR (Error e)], w, Raise e)
        end
    | Raise e => ([Log ERROR (Error e)], w, Raise e)
    end.
Proof.
  unfold open_stream, try_except, mbind, M_bind, lift, logger_info,
    logger_error, emit, raise, call_converse_stream.
  destruct (base_args args) as [kw|e]; simpl; [|done].
  by destruct (converse_stream client kw).
Qed.

(** [run] is the [try] block and then, when it does not raise, the loop
    from the empty accumulator and the empty stop reason. *)
Lemma run_unfold self args w :
  run client calculate_price self args w =
    match @open_stream W client R args w with
    | (t, w', Ok response) =>
        match loop calculate_price self (stream response) ([], VStr []) w' with
        | (t', w'', Ok _) => (t ++ t', w'', Ok ())
        | (t', w'', Raise e) => (t ++ t', w'', Raise e)
        end
    | (t, w', Raise e) => (t, w', Raise e)
    end.
Proof.
  unfold run, mbind, M_bind.
  destruct (open_stream client args w) as [[t w'] [response|e]]; [|done].
  destruct (loop _ _ _ _ w') as [[t' w''] [st|e]]; [|done].
  unfold mret, M_ret. by rewrite app_nil_r.
Qed.

(** Once the arguments are built, the run is decided by what the backend
    answers to them: the loop over the events of the response, or the
    exception, logged. *)
Lemma run_after_call self args kw w :
  base_args args = Ok kw ->
  run client calculate_price self args w =
    match converse_stream client kw with
    | Ok response =>
        let '(t, w', r) :=
          loop calculate_price self (stream response) ([], VStr []) w in
        (Log INFO (ArgsForConverseStream args) :: ConverseStream kw :: t, w',
         match r with Ok _ => Ok () | Raise e => Raise e end)
    | Raise e =>
        ([Log INFO (ArgsForConverseStream args); ConverseStream kw;
          Log ERROR (Error e)], w, Raise e)
    end.
Proof.
  intros Hkw. rewrite run_unfold, open_stream_backend_answer, Hkw.
  destruct (converse_stream client kw) as [response|e]; [|done].
  by destruct (loop _ _ _ _ w) as [[t' w''] [st|e]].
Qed.

(** When the backend answers with well-formed events, [run] returns: its
    trace is the two records of the [try] block followed by the trace of
    the loop from the empty accumulator and the empty stop reason. *)
Lemma run_classified self args response (evs : list StreamEvent) w :
  backend_answer client args = Ok response ->
  classify_all (stream response) = Some evs ->
  exists kw t w',
    run client calculate_price self args w =
      (Log INFO (ArgsForConverseStream args) :: ConverseStream kw :: t, w',
       Ok ()) /\
    loop calculate_price self (stream response) ([], VStr []) w =
      (t, w', Ok (VStr <$> texts evs, VStr (last_stop_reason [] evs))) /\
    on_stream_calls t = VStr <$> texts evs /\
    on_stop_calls t =
      expected_summaries calculate_price (model self) [] [] evs /\
    relayed self w t w'.
Proof.
  unfold backend_answer. intros Hanswer Hevs%classify_all_Forall2.
  destruct (base_args args) as [kw|e] eqn:Hkw; [|done]. simpl in Hanswer.
  destruct (loop_classified calculate_price self _ _ [] [] w Hevs)
    as (t & w' & Hloop & Hs & Hp & _ & Hrel).
  exists kw, t, w'. split; [|done].
  rewrite run_unfold, open_stream_backend_answer, Hkw, Hanswer.
  simpl in Hloop. by rewrite Hloop.
Qed.

(** ** The contract of [run] *)

(** C1.  When the backend sends [ContentDelta] events with the texts
    [ts], in that order, and then a [Metadata] event, the run returns and
    invokes [on_stop] once, with a summary whose [full_token] is the
    right-trim of the concatenation of [ts] in arrival order.  The
    summary in the trace is the one the callback is applied to: the trace
    is [relayed]. *)
Theorem full_token_is_rstrip_of_concat self args response w
    (ts : list str) (i o : Z) :
  backend_answer client args = Ok response ->
  classify_all (stream response)
    = Some ((ContentDelta <$> ts) ++ [Metadata i o]) ->
  exists t w',
    run client calculate_price self args w = (t, w', Ok ()) /\
    full_token <$> on_stop_calls t = [rstrip (concat ts)] /\
    relayed self w t w'.
Proof.
  intros Hanswer Hevs.
  destruct (run_classified self args response _ w Hanswer Hevs)
    as (kw & t & w' & Hrun & _ & _ & Hstop & Hrel).
  eexists _, w'. split; [exact Hrun|]. split; [|by do 2 constructor].
  change (full_token <$> on_stop_calls t = [rstrip (concat ts)]).
  rewrite Hstop, expected_summaries_app, texts_deltas, last_stop_reason_deltas.
  pose proof (expected_summaries_length calculate_price (model self) [] []
                (ContentDelta <$> ts)) as Hlen.
  rewrite usages_deltas in Hlen.
  destruct (expected_summaries _ _ _ _ (ContentDelta <$> ts)); [|done].
  reflexivity.
Qed.

(** C2.  Over any stream of well-formed events the run returns; from the
    empty accumulator its loop leaves the fragments of the [ContentDelta]
    events appended in arrival order; [on_stream] is invoked exactly on
    those fragments, untrimmed and in that order; and every invocation is
    followed at once by the yield of what the callback returned. *)
Theorem on_stream_once_per_delta_in_order self args response w
    (evs : list StreamEvent) :
  backend_answer client args = Ok response ->
  classify_all (stream response) = Some evs ->
  exists t0 t1 w' sr,
    run client calculate_price self args w = (t0 ++ t1, w', Ok ()) /\
    loop calculate_price self (stream response) ([], VStr []) w =
      (t1, w', Ok (VStr <$> texts evs, sr)) /\
    on_stream_calls (t0 ++ t1) = VStr <$> texts evs /\
    relayed self w (t0 ++ t1) w'.
Proof.
  intros Hanswer Hevs.
  destruct (run_classified self args response _ w Hanswer Hevs)
    as (kw & t & w' & Hrun & Hloop & Hstream & _ & Hrel).
  exists [Log INFO (ArgsForConverseStream args); ConverseStream kw], t, w'.
  eexists. split; [exact Hrun|]. split; [exact Hloop|]. split; [exact Hstream|].
  by do 2 constructor.
Qed.

(** C3, as amended.  Over any stream of well-formed events the run
    invokes [on_stop] once per [Metadata] event of the stream: not at all
    when there is none, once when there is one, and once more for every
    further one.  The invocations are those of the trace, which is
    [relayed]: each is the callback applied to the summary, in the world
    the earlier invocations have left. *)
Theorem on_stop_once_per_metadata self args response w
    (evs : list StreamEvent) :
  backend_answer client args = Ok response ->
  classify_all (stream response) = Some evs ->
  exists t w',
    run client calculate_price self args w = (t, w', Ok ()) /\
    length (on_stop_calls t) = length (filter is_metadata evs) /\
    on_stop_calls t
      = expected_summaries calculate_price (model self) [] [] evs /\
    relayed self w t w'.
Proof.
  intros Hanswer Hevs.
  destruct (run_classified self args response _ w Hanswer Hevs)
    as (kw & t & w' & Hrun & _ & _ & Hstop & Hrel).
  eexists _, w'. split; [exact Hrun|].
  split; [|split; [exact Hstop|by do 2 constructor]].
  change (length (on_stop_calls t) = length (filter is_metadata evs)).
  by rewrite Hstop, expected_summaries_length, usages_length.
Qed.

(** C4, as amended.  When the events after a [Metadata] event hold no
    [ContentDelta] and no further [Metadata], the element yielded after
    the [on_stop] invocation for it is the last one the run yields, and
    only log records follow it. *)
Theorem metadata_yield_is_last_when_nothing_follows self args response w
    (pre post : list StreamEvent) (i o : Z) :
  backend_answer client args = Ok response ->
  classify_all (stream response) = Some (pre ++ Metadata i o :: post) ->
  forallb quiet post = true ->
  exists t1 summary r msg t2 w',
    run client calculate_price self args w =
      (t1 ++ OnStop summary r :: Log INFO msg :: Yield r :: t2, w', Ok ()) /\
    input_token_count summary = i /\ output_token_count summary = o /\
    forallb is_log t2 = true /\
    on_stream_calls t2 = [] /\ on_stop_calls t2 = [] /\
    last (yields (t1 ++ OnStop summary r :: Log INFO msg :: Yield r :: t2))
      = Some r.
Proof.
  unfold backend_answer. intros Hanswer Hevs%classify_all_Forall2 Hquiet.
  destruct (base_args args) as [kw|e] eqn:Hkw; [|done]. simpl in Hanswer.
  apply Forall2_app_inv_r in Hevs as (epre & erest & Hpre & Hrest & Hsplit).
  apply Forall2_cons_inv_r in Hrest as (event & epost & Hev & Hpost & ->).
  destruct (loop_classified calculate_price self _ _ [] [] w Hpre)
    as (t1 & w1 & Hloop1 & _).
  destruct (on_stop self
              {| full_token := rstrip (concat (texts pre));
                 stop_reason := last_stop_reason [] pre;
                 input_token_count := i; output_token_count := o;
                 price := calculate_price (model self) i o |} w1)
    as [r w2] eqn:Hr.
  destruct (loop_quiet calculate_price self _ _
              (VStr <$> texts pre, VStr (last_stop_reason [] pre)) w2
              Hpost Hquiet) as (t2 & st' & Hloop2 & Hlogs).
  destruct (logs_are_silent t2 Hlogs) as (Hs2 & Hp2 & Hy2).
  eexists (Log INFO (ArgsForConverseStream args) :: ConverseStream kw
             :: t1 ++ [Log DEBUG (Event event)]), _, r, _, t2, w2.
  split.
  { rewrite run_unfold, open_stream_backend_answer, Hkw, Hanswer, Hsplit,
      loop_app.
    simpl in Hloop1. rewrite Hloop1. cbn [loop]. unfold mbind, M_bind.
    rewrite (handle_event_Metadata _ _ _ _ _ _ _ _ Hev). cbv zeta.
    rewrite Hr. fold (@loop W pydantic calculate_price R). rewrite Hloop2.
    simpl. rewrite <- app_assoc. reflexivity. }
  repeat split; try done.
  rewrite yields_app.
  change (yields (OnStop ?s r :: Log INFO ?m :: Yield r :: t2))
    with (r :: yields t2).
  rewrite Hy2. apply last_snoc.
Qed.

(** C5.  When the stream holds no [Metadata] event, the run still
    returns without raising: [on_stream] has been invoked once per
    [ContentDelta] event, [on_stop] never, and no summary exists.  The
    invocations are those of the trace, which is [relayed]. *)
Theorem no_metadata_no_summary self args response w
    (evs : list StreamEvent) :
  backend_answer client args = Ok response ->
  classify_all (stream response) = Some evs ->
  forallb (fun ev => negb (is_metadata ev)) evs = true ->
  exists t w',
    run client calculate_price self args w = (t, w', Ok ()) /\
    on_stream_calls t = VStr <$> texts evs /\
    on_stop_calls t = [] /\
    relayed self w t w'.
Proof.
  intros Hanswer Hevs Hnone.
  destruct (run_classified self args response _ w Hanswer Hevs)
    as (kw & t & w' & Hrun & _ & Hstream & Hstop & Hrel).
  eexists _, w'. split; [exact Hrun|]. split; [exact Hstream|].
  split; [|by do 2 constructor].
  change (on_stop_calls t = []). rewrite Hstop.
  apply length_zero_iff_nil.
  by rewrite expected_summaries_length, (usages_no_metadata _ Hnone).
Qed.

(** C6.  The summaries of a run carry, in order, the two counts of the
    [Metadata] events and, as [price], the float [calculate_price] returns
    for the model of the handler and those two counts, bit for bit: the
    [float] field of the model keeps a float as it is.  The summaries are
    those the callback is applied to: the trace is [relayed]. *)
Theorem price_is_calculate_price self args response w
    (evs : list StreamEvent) :
  backend_answer client args = Ok response ->
  classify_all (stream response) = Some evs ->
  exists t w',
    run client calculate_price self args w = (t, w', Ok ()) /\
    (fun s => (input_token_count s, output_token_count s, price s))
      <$> on_stop_calls t =
    (fun io => (io.1, io.2, calculate_price (model self) io.1 io.2))
      <$> usages evs /\
    relayed self w t w'.
Proof.
  intros Hanswer Hevs.
  destruct (run_classified self args response _ w Hanswer Hevs)
    as (kw & t & w' & Hrun & _ & _ & Hstop & Hrel).
  eexists _, w'. split; [exact Hrun|]. split; [|by do 2 constructor].
  change ((fun s => (input_token_count s, output_token_count s, price s))
            <$> on_stop_calls t =
          (fun io => (io.1, io.2, calculate_price (model self) io.1 io.2))
            <$> usages evs).
  rewrite Hstop. apply expected_summaries_usages.
Qed.

(** C7.  The keyword arguments of every backend call of a run have the
    [guardrailConfig] field exactly as the request has it: with the
    request's value when the request has the key, absent when it has
    not.  They are what the backend is called with: the run is the one
    the answer of [converse_stream] to them decides. *)
Theorem guardrail_passed_iff_supplied self args w kw :
  kw ∈ backend_calls (run client calculate_price self args w).1.1 ->
  kw !! "guardrailConfig" = args !! "guardrailConfig" /\
  run client calculate_price self args w =
    match converse_stream client kw with
    | Ok response =>
        let '(t, w', r) :=
          loop calculate_price self (stream response) ([], VStr []) w in
        (Log INFO (ArgsForConverseStream args) :: ConverseStream kw :: t, w',
         match r with Ok _ => Ok () | Raise e => Raise e end)
    | Raise e =>
        ([Log INFO (ArgsForConverseStream args); ConverseStream kw;
          Log ERROR (Error e)], w, Raise e)
    end.
Proof.
  destruct (base_args args) as [kw'|e] eqn:Hkw.
  - rewrite (run_after_call self args kw' w Hkw) at 1.
    assert (kw ∈ [kw'] -> kw = kw') as Hone
      by (by intros ->%list_elem_of_singleton).
    intros Hin. assert (kw = kw') as ->.
    { destruct (converse_stream client kw') as [response|e];
        [|by apply Hone].
      pose proof (loop_no_backend_call calculate_price self (stream response)
                    ([], VStr []) w) as Hloop.
      destruct (loop _ _ _ _ w) as [[t' w''] r]. simpl in *.
      apply Hone. unfold backend_calls in *. simpl in Hin.
      by rewrite Hloop in Hin. }
    split; [by apply base_args_guardrail|by apply run_after_call].
  - rewrite run_unfold, open_stream_backend_answer, Hkw. simpl.
    by intros ?%not_elem_of_nil.
Qed.

(** C8.  When the [try] block raises, the run raises the same exception
    after logging it at error level; nothing is yielded, neither callback
    is invoked and the world is as it was. *)
Theorem failed_call_is_logged_and_raised_again self args w e :
  backend_answer client args = Raise e ->
  exists t,
    run client calculate_price self args w = (t, w, Raise e) /\
    last t = Some (Log ERROR (Error e)) /\
    logger_emits ERROR = true /\
    yields t = [] /\ on_stream_calls t = [] /\ on_stop_calls t = [].
Proof.
  unfold backend_answer. intros Hanswer.
  rewrite run_unfold, open_stream_backend_answer.
  destruct (base_args args) as [kw|e'] eqn:Hkw; simpl in Hanswer.
  - rewrite Hanswer. by eexists.
  - injection Hanswer as ->. by eexists.
Qed.

(** C9.  A [MessageStop] event received after the events [pre] only
    replaces the stop reason: the iteration writes one debug record,
    yields nothing, invokes no callback, leaves the world and the
    accumulator as they were, and the loop goes on over the rest with the
    new stop reason. *)
Theorem message_stop_only_records_reason self (pre post : list dict) event
    reason st w t1 w1 completions stop_reason :
  classify event = Some (MessageStop reason) ->
  loop calculate_price self pre st w = (t1, w1, Ok (completions, stop_reason)) ->
  handle_event calculate_price self event (completions, stop_reason) w1
    = ([Log DEBUG (Event event)], w1, Ok (completions, VStr reason)) /\
  loop calculate_price self (pre ++ event :: post) st w =
    let '(t2, w2, out) :=
      loop calculate_price self post (completions, VStr reason) w1 in
    (t1 ++ Log DEBUG (Event event) :: t2, w2, out).
Proof.
  intros Hev Hpre. split; [by apply handle_event_MessageStop|].
  rewrite loop_app, Hpre. cbn [loop]. unfold mbind, M_bind.
  rewrite (handle_event_MessageStop _ _ _ _ _ _ _ Hev).
  fold (@loop W pydantic calculate_price R).
  by destruct (loop _ _ post _ w1) as [[t2 w2] out].
Qed.

(** C10.  A [Metadata] event that no [MessageStop] event precedes still
    gets its [on_stop] invocation, and the summary carries the empty
    string, the initial stop reason.  The summary is the one the callback
    is applied to: the trace is [relayed]. *)
Theorem metadata_without_stop_has_empty_reason self args response w
    (pre post : list StreamEvent) (i o : Z) :
  backend_answer client args = Ok response ->
  classify_all (stream response) = Some (pre ++ Metadata i o :: post) ->
  forallb (fun ev => negb (is_message_stop ev)) pre = true ->
  exists t w' summary,
    run client calculate_price self args w = (t, w', Ok ()) /\
    on_stop_calls t !! length (filter is_metadata pre) = Some summary /\
    stop_reason summary = [] /\
    input_token_count summary = i /\ output_token_count summary = o /\
    relayed self w t w'.
Proof.
  intros Hanswer Hevs Hnostop.
  destruct (run_classified self args response _ w Hanswer Hevs)
    as (kw & t & w' & Hrun & _ & _ & Hstop & Hrel).
  eexists _, w', _. split; [exact Hrun|].
  change (on_stop_calls (Log INFO ?m :: ConverseStream kw :: t))
    with (on_stop_calls t).
  rewrite Hstop, expected_summaries_app, <- usages_length,
    <- (expected_summaries_length calculate_price (model self) [] [] pre).
  cbn [expected_summaries]. rewrite list_lookup_middle by done.
  split; [reflexivity|]. simpl.
  rewrite (last_stop_reason_no_stop _ _ Hnostop).
  repeat split. by do 2 constructor.
Qed.

End Run.

(** ** The contract on sample streams *)

Import Sample.

Lemma full_token_is_rstrip_of_concat_witness :
  let events := [content_delta "Hi"; content_delta " there  "; metadata 5 2] in
  backend_answer (client events) args = Ok {| stream := events |} /\
  classify_all events
    = Some ((ContentDelta <$> [py "Hi"; py " there  "]) ++ [Metadata 5 2]) /\
  exists t w',
    run (client events) calculate_price probe args 0 = (t, w', Ok ()) /\
    full_token <$> on_stop_calls t = [py "Hi there"] /\
    relayed probe 0 t w'.
Proof.
  intros events.
  assert (backend_answer (client events) args = Ok {| stream := events |})
    as Hanswer by reflexivity.
  assert (classify_all (stream {| stream := events |})
          = Some ((ContentDelta <$> [py "Hi"; py " there  "]) ++ [Metadata 5 2]))
    as Hevs by reflexivity.
  split; [exact Hanswer|]. split; [exact Hevs|].
  exact (full_token_is_rstrip_of_concat (client events) calculate_price probe
           args {| stream := events |} 0 [py "Hi"; py " there  "] 5 2
           Hanswer Hevs).
Defined.

Lemma on_stream_once_per_delta_in_order_witness :
  backend_answer (client conversation) args = Ok {| stream := conversation |} /\
  classify_all conversation = Some conversation_events /\
  exists t0 t1 w' sr,
    run (client conversation) calculate_price handler args 0
      = (t0 ++ t1, w', Ok ()) /\
    loop calculate_price handler conversation ([], VStr []) 0 =
      (t1, w', Ok ([VStr (py "Hi"); VStr (py " there")], sr)) /\
    on_stream_calls (t0 ++ t1) = [VStr (py "Hi"); VStr (py " there")] /\
    relayed handler 0 (t0 ++ t1) w'.
Proof.
  assert (backend_answer (client conversation) args
          = Ok {| stream := conversation |}) as Hanswer by reflexivity.
  assert (classify_all (stream {| stream := conversation |})
          = Some conversation_events) as Hevs by reflexivity.
  split; [exact Hanswer|]. split; [exact Hevs|].
  exact (on_stream_once_per_delta_in_order (client conversation)
           calculate_price handler args {| stream := conversation |} 0
           conversation_events Hanswer Hevs).
Defined.

(** C3, as stated, fails: on a stream with two [Metadata] events one run
    invokes [on_stop] twice.  The handler hands back the summary it was
    given with the number of the invocation, so the two elements yielded
    and the final world are those of two invocations. *)
Lemma on_stop_at_most_once_counterexample :
  let events := [metadata 5 2; metadata 7 3] in
  let first :=
    {| full_token := []; stop_reason := []; input_token_count := 5;
       output_token_count := 2;
       price := calculate_price "claude-v3-haiku" 5 2 |} in
  let second :=
    {| full_token := []; stop_reason := []; input_token_count := 7;
       output_token_count := 3;
       price := calculate_price "claude-v3-haiku" 7 3 |} in
  classify_all events = Some [Metadata 5 2; Metadata 7 3] /\
  exists t,
    run (client events) calculate_price probe args 0 = (t, 2, Ok ()) /\
    on_stop_calls t = [first; second] /\
    yields t = [(0, inr first); (1, inr second)] /\
    relayed probe 0 t 2 /\
    ~ length (on_stop_calls t) <= 1.
Proof.
  intros events first second. split; [reflexivity|].
  eexists. split; [vm_compute; reflexivity|].
  split; [reflexivity|]. split; [reflexivity|]. split.
  - repeat first [ apply relayed_nil | apply relayed_log
                 | apply relayed_backend_call
                 | (eapply relayed_on_stop; [reflexivity|]) ].
  - simpl. lia.
Qed.

Lemma on_stop_once_per_metadata_witness :
  let events := [metadata 5 2; metadata 7 3] in
  backend_answer (client events) args = Ok {| stream := events |} /\
  classify_all events = Some [Metadata 5 2; Metadata 7 3] /\
  exists t w',
    run (client events) calculate_price probe args 0 = (t, w', Ok ()) /\
    length (on_stop_calls t) = 2 /\
    on_stop_calls t =
      [ {| full_token := []; stop_reason := []; input_token_count := 5;
           output_token_count := 2;
           price := calculate_price "claude-v3-haiku" 5 2 |};
        {| full_token := []; stop_reason := []; input_token_count := 7;
           output_token_count := 3;
           price := calculate_price "claude-v3-haiku" 7 3 |} ] /\
    relayed probe 0 t w'.
Proof.
  intros events.
  assert (backend_answer (client events) args = Ok {| stream := events |})
    as Hanswer by reflexivity.
  assert (classify_all (stream {| stream := events |})
          = Some [Metadata 5 2; Metadata 7 3]) as Hevs by reflexivity.
  split; [exact Hanswer|]. split; [exact Hevs|].
  exact (on_stop_once_per_metadata (client events) calculate_price probe
           args {| stream := events |} 0 _ Hanswer Hevs).
Defined.

(** C4, as stated, fails: [Metadata] does not end the run.  On a stream
    with a [ContentDelta] after the [Metadata], [on_stream] is invoked
    after [on_stop] (the world counts the invocations: [on_stop] is the
    one numbered 0, [on_stream] the one numbered 1), and the last element
    yielded is the return value of [on_stream]. *)
Lemma metadata_is_terminal_counterexample :
  let events := [metadata 5 2; content_delta "late"] in
  classify_all events = Some [Metadata 5 2; ContentDelta (py "late")] /\
  exists t kw summary,
    run (client events) calculate_price handler args 0 = (t, 2, Ok ()) /\
    filter (fun a => negb (is_log a)) t =
      [ ConverseStream kw;
        OnStop summary (0, VStr []); Yield (0, VStr []);
        OnStream (VStr (py "late")) (1, VStr (py "late"));
        Yield (1, VStr (py "late")) ] /\
    last (yields t) = Some (1, VStr (py "late")) /\
    last (yields t) <> Some (0, VStr []).
Proof.
  intros events. split; [reflexivity|].
  eexists _, _, _. split; [vm_compute; reflexivity|].
  split; [reflexivity|]. split; [reflexivity|]. discriminate.
Qed.

Lemma metadata_yield_is_last_when_nothing_follows_witness :
  exists t1 summary r msg t2 w',
    run (client conversation) calculate_price handler args 0 =
      (t1 ++ OnStop summary r :: Log INFO msg :: Yield r :: t2, w', Ok ()) /\
    input_token_count summary = 5%Z /\ output_token_count summary = 2%Z /\
    forallb is_log t2 = true /\
    on_stream_calls t2 = [] /\ on_stop_calls t2 = [] /\
    last (yields (t1 ++ OnStop summary r :: Log INFO msg :: Yield r :: t2))
      = Some r.
Proof.
  assert (backend_answer (client conversation) args
          = Ok {| stream := conversation |}) as Hanswer by reflexivity.
  assert (classify_all (stream {| stream := conversation |})
          = Some ([Ignored; ContentDelta (py "Hi"); ContentDelta (py " there");
                   MessageStop (py "end_turn")] ++ Metadata 5 2 :: []))
    as Hevs by reflexivity.
  exact (metadata_yield_is_last_when_nothing_follows (client conversation)
           calculate_price handler args {| stream := conversation |} 0
           _ _ 5 2 Hanswer Hevs eq_refl).
Defined.

Lemma no_metadata_no_summary_witness :
  let events := [content_delta "Hi"; content_delta " there"] in
  backend_answer (client events) args = Ok {| stream := events |} /\
  classify_all events = Some [ContentDelta (py "Hi"); ContentDelta (py " there")] /\
  exists t w',
    run (client events) calculate_price probe args 0 = (t, w', Ok ()) /\
    on_stream_calls t = [VStr (py "Hi"); VStr (py " there")] /\
    on_stop_calls t = [] /\
    relayed probe 0 t w'.
Proof.
  intros events.
  assert (backend_answer (client events) args = Ok {| stream := events |})
    as Hanswer by reflexivity.
  assert (classify_all (stream {| stream := events |})
          = Some [ContentDelta (py "Hi"); ContentDelta (py " there")])
    as Hevs by reflexivity.
  split; [exact Hanswer|]. split; [exact Hevs|].
  exact (no_metadata_no_summary (client events) calculate_price probe args
           {| stream := events |} 0 _ Hanswer Hevs eq_refl).
Defined.

Lemma price_is_calculate_price_witness :
  backend_answer (client conversation) args = Ok {| stream := conversation |} /\
  classify_all conversation = Some conversation_events /\
  exists t w',
    run (client conversation) calculate_price probe args 0 = (t, w', Ok ()) /\
    (fun s => (input_token_count s, output_token_count s, price s))
      <$> on_stop_calls t =
    [(5%Z, 2%Z, calculate_price "claude-v3-haiku" 5 2)] /\
    relayed probe 0 t w'.
Proof.
  assert (backend_answer (client conversation) args
          = Ok {| stream := conversation |}) as Hanswer by reflexivity.
  assert (classify_all (stream {| stream := conversation |})
          = Some conversation_events) as Hevs by reflexivity.
  split; [exact Hanswer|]. split; [exact Hevs|].
  exact (price_is_calculate_price (client conversation) calculate_price
           probe args {| stream := conversation |} 0 conversation_events
           Hanswer Hevs).
Defined.

Lemma guardrail_passed_iff_supplied_witness :
  (guarded_kwargs ∈
     backend_calls
       (run (guarded_client conversation) calculate_price probe
          guarded_args 0).1.1 /\
   guarded_kwargs !! "guardrailConfig"
     = Some (VDict {[ "guardrailIdentifier" := VStr (py "g1") ]}) /\
   (run (guarded_client conversation) calculate_price probe
      guarded_args 0).2 = Ok ()) /\
  (kwargs ∈
     backend_calls
       (run (guarded_client conversation) calculate_price probe args 0).1.1 /\
   kwargs !! "guardrailConfig" = None /\
   run (guarded_client conversation) calculate_price probe args 0 =
     ([Log INFO (ArgsForConverseStream args); ConverseStream kwargs;
       Log ERROR (Error (BackendError "ValidationException"))], 0,
      Raise (BackendError "ValidationException"))).
Proof.
  assert (guarded_kwargs ∈
            backend_calls
              (run (guarded_client conversation) calculate_price probe
                 guarded_args 0).1.1) as Hguarded.
  { change (guarded_kwargs ∈ [guarded_kwargs]). apply list_elem_of_here. }
  assert (kwargs ∈
            backend_calls
              (run (guarded_client conversation) calculate_price probe
                 args 0).1.1) as Hplain.
  { change (kwargs ∈ [kwargs]). apply list_elem_of_here. }
  destruct (guardrail_passed_iff_supplied (guarded_client conversation)
              calculate_price probe guarded_args 0 guarded_kwargs Hguarded)
    as [Hfield Hrun].
  destruct (guardrail_passed_iff_supplied (guarded_client conversation)
              calculate_price probe args 0 kwargs Hplain)
    as [Hfield' Hrun'].
  split; (split; [assumption|]).
  - split; [exact Hfield|]. rewrite Hrun. reflexivity.
  - split; [exact Hfield'|]. rewrite Hrun'. reflexivity.
Defined.

Lemma failed_call_is_logged_and_raised_again_witness :
  backend_answer failing_client args
    = Raise (BackendError "EndpointConnectionError") /\
  exists t,
    run failing_client calculate_price handler args 0
      = (t, 0, Raise (BackendError "EndpointConnectionError")) /\
    last t = Some (Log ERROR (Error (BackendError "EndpointConnectionError"))) /\
    logger_emits ERROR = true /\
    yields t = [] /\ on_stream_calls t = [] /\ on_stop_calls t = [].
Proof.
  assert (backend_answer failing_client args
          = Raise (BackendError "EndpointConnectionError"))
    as Hanswer by reflexivity.
  split; [exact Hanswer|].
  exact (failed_call_is_logged_and_raised_again failing_client calculate_price
           handler args 0 _ Hanswer).
Defined.

Lemma message_stop_only_records_reason_witness :
  let pre := [content_delta "Hi"] in
  let event := message_stop "end_turn" in
  let post := [metadata 5 2] in
  let t1 := [Log DEBUG (Event (content_delta "Hi"));
             OnStream (VStr (py "Hi")) (0, VStr (py "Hi"));
             Yield (0, VStr (py "Hi"))] in
  handle_event calculate_price handler event ([VStr (py "Hi")], VStr []) 1
    = ([Log DEBUG (Event event)], 1,
       Ok ([VStr (py "Hi")], VStr (py "end_turn"))) /\
  loop calculate_price handler (pre ++ event :: post) ([], VStr []) 0 =
    let '(t2, w2, out) :=
      loop calculate_price handler post
        ([VStr (py "Hi")], VStr (py "end_turn")) 1 in
    (t1 ++ Log DEBUG (Event event) :: t2, w2, out).
Proof.
  intros pre event post t1.
  assert (classify event = Some (MessageStop (py "end_turn")))
    as Hev by reflexivity.
  assert (loop calculate_price handler pre ([], VStr []) 0
          = (t1, 1, Ok ([VStr (py "Hi")], VStr []))) as Hpre by reflexivity.
  exact (message_stop_only_records_reason calculate_price handler pre post
           event (py "end_turn") ([], VStr []) 0 t1 1 [VStr (py "Hi")]
           (VStr []) Hev Hpre).
Defined.

Lemma metadata_without_stop_has_empty_reason_witness :
  let events := [content_delta "Hi"; metadata 5 2; message_stop "end_turn"] in
  backend_answer (client events) args = Ok {| stream := events |} /\
  classify_all events
    = Some ([ContentDelta (py "Hi")] ++ Metadata 5 2
              :: [MessageStop (py "end_turn")]) /\
  exists t w' summary,
    run (client events) calculate_price probe args 0 = (t, w', Ok ()) /\
    on_stop_calls t !! 0 = Some summary /\
    stop_reason summary = [] /\
    input_token_count summary = 5%Z /\ output_token_count summary = 2%Z /\
    relayed probe 0 t w'.
Proof.
  intros events.
  assert (backend_answer (client events) args = Ok {| stream := events |})
    as Hanswer by reflexivity.
  assert (classify_all (stream {| stream := events |})
          = Some ([ContentDelta (py "Hi")] ++ Metadata 5 2
                    :: [MessageStop (py "end_turn")])) as Hevs by reflexivity.
  split; [exact Hanswer|]. split; [exact Hevs|].
  exact (metadata_without_stop_has_empty_reason (client events)
           calculate_price probe args {| stream := events |} 0
           [ContentDelta (py "Hi")] [MessageStop (py "end_turn")] 5 2
           Hanswer Hevs eq_refl).
Defined.

(** ** Beyond well-formed streams *)

Section AnyStream.
Context {W R : Type} {pydantic : Pydantic}.
Variable client : BedrockRuntimeClient.
Variable calculate_price : string -> Z -> Z -> float.
Implicit Types (self : @ConverseApiStreamHandler W R).
Implicit Types (event : dict) (events pre post : list dict).
Implicit Types (args kw : dict) (w : W) (t : list (@action R)).

Lemma relayed_app self w t w1 t' w2 :
  relayed self w t w1 -> relayed self w1 t' w2 -> relayed self w (t ++ t') w2.
Proof.
  induction 1; intros Ht'; simpl; [done|..].
  - constructor; auto.
  - constructor; auto.
  - eapply relayed_on_stream; eauto.
  - eapply relayed_on_stop; eauto.
Qed.

(** One iteration, whatever the dictionary is and however it ends. *)
Lemma handle_event_relayed self event st w :
  relayed self w (handle_event calculate_price self event st w).1.1
    (handle_event calculate_price self event st w).1.2.
Proof.
  destruct st as [cs sr]. open_body.
  repeat (case_match; simplify_eq; simpl in * );
    repeat first [ apply relayed_nil | apply relayed_log
                 | (eapply relayed_on_stream; [eassumption|])
                 | (eapply relayed_on_stop; [eassumption|]) ].
Qed.

Lemma handle_event_one_yield self event st w :
  length (yields (handle_event calculate_price self event st w).1.1) <= 1.
Proof.
  destruct st as [cs sr]. open_body.
  repeat (case_match; simplify_eq; simpl in * ); lia.
Qed.

Lemma handle_event_no_error_log self event st w :
  forallb (fun a => negb (is_error_log a))
    (handle_event calculate_price self event st w).1.1 = true.
Proof.
  destruct st as [cs sr]. open_body.
  repeat (case_match; simplify_eq; simpl in * ); done.
Qed.

(** The shape of the loop: what it comes to on a non-empty stream. *)
Lemma loop_cons self event events st w :
  loop calculate_price self (event :: events) st w =
    match handle_event calculate_price self event st w with
    | (t, w', Ok st') =>
        let '(t', w'', r) := loop calculate_price self events st' w' in
        (t ++ t', w'', r)
    | (t, w', Raise e) => (t, w', Raise e)
    end.
Proof. reflexivity. Qed.

Lemma loop_relayed self events st w :
  relayed self w (loop calculate_price self events st w).1.1
    (loop calculate_price self events st w).1.2.
Proof.
  revert st w. induction events as [|event events IH]; intros st w.
  - constructor.
  - rewrite loop_cons.
    pose proof (handle_event_relayed self event st w) as Hev.
    destruct (handle_event calculate_price self event st w)
      as [[t w'] [st'|e]]; [|exact Hev].
    specialize (IH st' w').
    destruct (loop calculate_price self events st' w') as [[t' w''] r].
    simpl in *. by eapply relayed_app.
Qed.

Lemma loop_yields_bound self events st w :
  length (yields (loop calculate_price self events st w).1.1) <= length events.
Proof.
  revert st w. induction events as [|event events IH]; intros st w; [done|].
  rewrite loop_cons.
  pose proof (handle_event_one_yield self event st w) as Hev.
  destruct (handle_event calculate_price self event st w)
    as [[t w'] [st'|e]]; simpl in *; [|lia].
  specialize (IH st' w').
  destruct (loop calculate_price self events st' w') as [[t' w''] r].
  simpl in *. rewrite yields_app, length_app. lia.
Qed.

Lemma loop_no_error_log self events st w :
  forallb (fun a => negb (is_error_log a))
    (loop calculate_price self events st w).1.1 = true.
Proof.
  revert st w. induction events as [|event events IH]; intros st w; [done|].
  rewrite loop_cons.
  pose proof (handle_event_no_error_log self event st w) as Hev.
  destruct (handle_event calculate_price self event st w)
    as [[t w'] [st'|e]]; simpl in *; [|done].
  specialize (IH st' w').
  destruct (loop calculate_price self events st' w') as [[t' w''] r].
  simpl in *. by rewrite forallb_app, Hev, IH.
Qed.

(** X1.  Whatever the request, the backend and the events are, and
    whether the run returns or raises: every element the run yields is
    what a callback returned, in the world the callback was invoked in,
    and it is yielded before anything else is invoked. *)
Theorem every_yield_is_a_callback_return self args w :
  relayed self w (run client calculate_price self args w).1.1
    (run client calculate_price self args w).1.2.
Proof.
  rewrite run_unfold, open_stream_backend_answer.
  destruct (base_args args) as [kw|e]; [|by repeat constructor].
  destruct (converse_stream client kw) as [response|e];
    [|by repeat constructor].
  pose proof (loop_relayed self (stream response) ([], VStr []) w) as Hloop.
  destruct (loop _ _ _ _ w) as [[t' w''] [st|e]]; simpl in *;
    by do 2 constructor.
Qed.

(** X2.  A run yields at most one element per event of the stream, and
    none when the backend call did not succeed. *)
Theorem at_most_one_yield_per_event self args w :
  length (yields (run client calculate_price self args w).1.1) <=
    match backend_answer client args with
    | Ok response => length (stream response)
    | Raise _ => 0
    end.
Proof.
  rewrite run_unfold, open_stream_backend_answer. unfold backend_answer.
  destruct (base_args args) as [kw|e]; simpl; [|done].
  destruct (converse_stream client kw) as [response|e]; simpl; [|done].
  pose proof (loop_yields_bound self (stream response) ([], VStr []) w) as Hloop.
  by destruct (loop _ _ _ _ w) as [[t' w''] [st|e]].
Qed.

(** X3.  Once the backend has answered, nothing is logged at error
    level, however the events are shaped and however the run ends; and an
    exception of the loop is the exception of the run. *)
Theorem midstream_failure_is_not_logged self args response w :
  backend_answer client args = Ok response ->
  forallb (fun a => negb (is_error_log a))
    (run client calculate_price self args w).1.1 = true /\
  forall e,
    (loop calculate_price self (stream response) ([], VStr []) w).2 = Raise e ->
    (run client calculate_price self args w).2 = Raise e.
Proof.
  unfold backend_answer. intros Hanswer.
  rewrite run_unfold, open_stream_backend_answer.
  destruct (base_args args) as [kw|e0]; [|done]. simpl in Hanswer.
  rewrite Hanswer.
  pose proof (loop_no_error_log self (stream response) ([], VStr []) w) as Hloop.
  destruct (loop _ _ _ _ w) as [[t' w''] [st|e0]]; simpl in *;
    (split; [done|]); by intros e [= ->].
Qed.

Lemma loop_stops_at_exception self pre event post st w t1 w1 st1 t2 w2 e :
  loop calculate_price self pre st w = (t1, w1, Ok st1) ->
  handle_event calculate_price self event st1 w1 = (t2, w2, Raise e) ->
  loop calculate_price self (pre ++ event :: post) st w
    = (t1 ++ t2, w2, Raise e).
Proof.
  intros Hpre Hev. by rewrite loop_app, Hpre, loop_cons, Hev.
Qed.

(** X4.  What the loop has done over the events [pre] does not depend on
    what comes after them: its trace over [pre] is a prefix of its trace
    over [pre ++ post]. *)
Theorem trace_of_a_prefix_is_a_prefix self pre post st w :
  (loop calculate_price self pre st w).1.1
    `prefix_of` (loop calculate_price self (pre ++ post) st w).1.1.
Proof.
  rewrite loop_app.
  destruct (loop calculate_price self pre st w) as [[t w'] [st'|e]];
    simpl; [|done].
  destruct (loop calculate_price self post st' w') as [[t' w''] r].
  simpl. by apply prefix_app_r.
Qed.

End AnyStream.

(** ** The request *)

Section Request.
Context {W R : Type} {pydantic : Pydantic}.
Variable client : BedrockRuntimeClient.
Variable calculate_price : string -> Z -> Z -> float.
Implicit Types (self : @ConverseApiStreamHandler W R).
Implicit Types (args kw : dict) (w : W).

Lemma base_args_first_missing args :
  match first_missing args with
  | Some k => base_args args = Raise (KeyError k)
  | None => exists kw, base_args args = Ok kw
  end.
Proof.
  unfold first_missing, required_keys, base_args, contains, getitem. simpl.
  destruct (args !! "model_id"); simpl; [|done].
  destruct (args !! "messages"); simpl; [|done].
  destruct (args !! "inference_config"); simpl; [|done].
  destruct (args !! "system"); simpl; [|done].
  destruct (args !! "additional_model_request_fields"); simpl; [|done].
  destruct (args !! "guardrailConfig"); simpl; eauto.
Qed.

(** X5.  When the request lacks one of the five required keys, the run
    raises [KeyError] for the first one missing, in the order of the
    source; the exception is logged at error level and nothing else
    happens: the request is not logged, the backend is not called, no
    callback is invoked, nothing is yielded. *)
Theorem missing_key_raises_key_error self args w k :
  first_missing args = Some k ->
  run client calculate_price self args w
    = ([Log ERROR (Error (KeyError k))], w, Raise (KeyError k)).
Proof.
  intros Hk. pose proof (base_args_first_missing args) as Hargs.
  rewrite Hk in Hargs.
  by rewrite run_unfold, open_stream_backend_answer, Hargs.
Qed.

(** X6.  When the request has the five required keys, a run calls the
    backend exactly once, with the keyword arguments built from the
    request, whatever the backend answers and whatever the events and the
    callbacks do.  Those arguments are what the backend is called with:
    the run is the one the answer of [converse_stream] to them decides. *)
Theorem backend_called_exactly_once self args w :
  first_missing args = None ->
  exists kw,
    base_args args = Ok kw /\
    backend_calls (run client calculate_price self args w).1.1 = [kw] /\
    run client calculate_price self args w =
      match converse_stream client kw with
      | Ok response =>
          let '(t, w', r) :=
            loop calculate_price self (stream response) ([], VStr []) w in
          (Log INFO (ArgsForConverseStream args) :: ConverseStream kw :: t, w',
           match r with Ok _ => Ok () | Raise e => Raise e end)
      | Raise e =>
          ([Log INFO (ArgsForConverseStream args); ConverseStream kw;
            Log ERROR (Error e)], w, Raise e)
      end.
Proof.
  intros Hk. pose proof (base_args_first_missing args) as Hargs.
  rewrite Hk in Hargs. destruct Hargs as [kw Hkw]. exists kw. split; [done|].
  split; [|by apply run_after_call].
  rewrite run_unfold, open_stream_backend_answer, Hkw.
  destruct (converse_stream client kw) as [response|e]; [|done].
  pose proof (loop_no_backend_call calculate_price self (stream response)
                ([], VStr []) w) as Hloop.
  destruct (loop _ _ _ _ w) as [[t' w''] [st|e]]; simpl in *;
    unfold backend_calls in *; simpl; by rewrite Hloop.
Qed.

(** X7.  The keyword arguments are the six fields of the request under
    their backend names and nothing else: a keyword is present exactly
    when it is one of the six and the request has the key it is read
    from, and then with the request's value.  No other key of the
    request reaches the backend. *)
Theorem keyword_arguments_are_the_request_fields args kw (keyword : string) :
  base_args args = Ok kw ->
  kw !! keyword =
    match forwarded_from keyword with
    | Some k => args !! k
    | None => None
    end.
Proof.
  unfold base_args, contains, getitem.
  destruct (args !! "model_id") eqn:H1; [|done].
  destruct (args !! "messages") eqn:H2; [|done].
  destruct (args !! "inference_config") eqn:H3; [|done].
  destruct (args !! "system") eqn:H4; [|done].
  destruct (args !! "additional_model_request_fields") eqn:H5; [|done].
  simpl. unfold forwarded_from.
  destruct (args !! "guardrailConfig") eqn:H6; simpl; intros [= <-];
    repeat case_decide; simplify_map_eq; done.
Qed.

End Request.

(** ** More on the summaries and the records of a run *)

Section Summary.
Context {W R : Type} {pydantic : Pydantic}.
Variable client : BedrockRuntimeClient.
Variable calculate_price : string -> Z -> Z -> float.
Implicit Types (self : @ConverseApiStreamHandler W R).
Implicit Types (event : dict) (events : list dict).
Implicit Types (args kw : dict) (w : W) (t : list (@action R)).
Implicit Types (pre post evs : list StreamEvent).

(** X8.  A [contentBlockDelta] event whose [delta] has no [text] (a
    tool-use delta) stops the run with [KeyError]: the events before it
    have had their callbacks, the last thing done is the debug record of
    the event, [on_stream] is not invoked for it and the events after it
    are not processed.  The invocations before it are those of the
    trace, which is [relayed]. *)
Theorem delta_without_text_raises_key_error self args response w
    (before after : list dict) event pre (cbd delta : dict) :
  backend_answer client args = Ok response ->
  stream response = before ++ event :: after ->
  classify_all before = Some pre ->
  event !! "contentBlockDelta" = Some (VDict cbd) ->
  cbd !! "delta" = Some (VDict delta) ->
  delta !! "text" = None ->
  exists t w',
    run client calculate_price self args w = (t, w', Raise (KeyError "text")) /\
    on_stream_calls t = VStr <$> texts pre /\
    on_stop_calls t = expected_summaries calculate_price (model self) [] [] pre /\
    last t = Some (Log DEBUG (Event event)) /\
    relayed self w t w'.
Proof.
  unfold backend_answer.
  intros Hanswer Hstream Hpre%classify_all_Forall2 Hcbd Hdelta Htext.
  destruct (base_args args) as [kw|e] eqn:Hkw; [|done]. simpl in Hanswer.
  destruct (loop_classified calculate_price self _ _ [] [] w Hpre)
    as (t1 & w1 & Hloop & Hs & Hp & _ & Hrel).
  assert (handle_event calculate_price self event
            (VStr <$> [] ++ texts pre, VStr (last_stop_reason [] pre)) w1
          = ([Log DEBUG (Event event)], w1, Raise (KeyError "text"))) as Hev.
  { unfold handle_event. rewrite (contains_Some _ _ _ Hcbd).
    unfold getitem. rewrite Hcbd. run_body. unfold getitem.
    rewrite Hdelta. simpl. unfold getitem. by rewrite Htext. }
  exists (Log INFO (ArgsForConverseStream args) :: ConverseStream kw
            :: t1 ++ [Log DEBUG (Event event)]), w1.
  split; [|split; [|split; [|split]]].
  - rewrite run_unfold, open_stream_backend_answer, Hkw, Hanswer, Hstream.
    simpl in Hloop.
    by rewrite (loop_stops_at_exception calculate_price self _ _ _ _ _ _ _ _
                  _ _ _ Hloop Hev).
  - unfold on_stream_calls in *. simpl. by rewrite omap_app, Hs, app_nil_r.
  - unfold on_stop_calls in *. simpl. by rewrite omap_app, Hp, app_nil_r.
  - by rewrite !last_cons, last_snoc.
  - do 2 constructor. eapply relayed_app; [exact Hrel|]. repeat constructor.
Qed.

(** The summary of the [Metadata] event that comes after the events
    [pre], in a run over well-formed events. *)
Lemma summary_after self args response w pre post (i o : Z) :
  backend_answer client args = Ok response ->
  classify_all (stream response) = Some (pre ++ Metadata i o :: post) ->
  exists t w',
    run client calculate_price self args w = (t, w', Ok ()) /\
    on_stop_calls t !! length (filter is_metadata pre) =
      Some {| full_token := rstrip (concat (texts pre));
              stop_reason := last_stop_reason [] pre;
              input_token_count := i; output_token_count := o;
              price := calculate_price (model self) i o |} /\
    relayed self w t w'.
Proof.
  intros Hanswer Hevs.
  destruct (run_classified client calculate_price self args response _ w
              Hanswer Hevs) as (kw & t & w' & Hrun & _ & _ & Hstop & Hrel).
  eexists _, w'. split; [exact Hrun|]. split; [|by do 2 constructor].
  change (on_stop_calls (Log INFO ?m :: ConverseStream kw :: t))
    with (on_stop_calls t).
  rewrite Hstop, expected_summaries_app, <- usages_length,
    <- (expected_summaries_length calculate_price (model self) [] [] pre).
  cbn [expected_summaries]. by rewrite list_lookup_middle.
Qed.

(** X9.  The summary for a [Metadata] event is made of everything
    received before it: all the fragments since the start of the run
    (the accumulator is not emptied by an earlier [Metadata]), and the
    stop reason of the latest [MessageStop] (a later one replaces an
    earlier one).  What comes after the event has no part in it.  The
    summary is the one the callback is applied to: the trace is
    [relayed]. *)
Theorem summary_is_made_of_what_came_before self args response w
    pre post (i o : Z) :
  backend_answer client args = Ok response ->
  classify_all (stream response) = Some (pre ++ Metadata i o :: post) ->
  exists t w' summary,
    run client calculate_price self args w = (t, w', Ok ()) /\
    on_stop_calls t !! length (filter is_metadata pre) = Some summary /\
    full_token summary = rstrip (concat (texts pre)) /\
    stop_reason summary = last_stop_reason [] pre /\
    input_token_count summary = i /\ output_token_count summary = o /\
    price summary = calculate_price (model self) i o /\
    relayed self w t w'.
Proof.
  intros Hanswer Hevs.
  destruct (summary_after self args response w pre post i o Hanswer Hevs)
    as (t & w' & Hrun & Hsummary & Hrel).
  by eexists t, w', _.
Qed.

(** X10.  The [full_token] of a summary is the received text up to its
    last character that is not whitespace: what is cut off is a suffix
    of whitespace only, and what is kept does not end in whitespace.
    Whitespace at the start and inside the text stays. *)
Theorem full_token_is_cut_after_last_non_space self args response w
    pre post (i o : Z) :
  backend_answer client args = Ok response ->
  classify_all (stream response) = Some (pre ++ Metadata i o :: post) ->
  exists t w' summary ws,
    run client calculate_price self args w = (t, w', Ok ()) /\
    on_stop_calls t !! length (filter is_metadata pre) = Some summary /\
    concat (texts pre) = full_token summary ++ ws /\
    forallb isspace ws = true /\
    forall c, last (full_token summary) = Some c -> isspace c = false.
Proof.
  intros Hanswer Hevs.
  destruct (summary_after self args response w pre post i o Hanswer Hevs)
    as (t & w' & Hrun & Hsummary & _).
  destruct (rstrip_split (concat (texts pre))) as (ws & Hsplit & Hws).
  eexists t, w', _, ws. split; [exact Hrun|]. split; [exact Hsummary|].
  split; [exact Hsplit|]. split; [exact Hws|].
  intros c. apply rstrip_last.
Qed.

(** The records the loop lets through over well-formed events: one per
    [Metadata] event. *)
Lemma loop_emitted self events evs st w :
  Forall2 (fun event ev => classify event = Some ev) events evs ->
  forall ts sr, st = (VStr <$> ts, VStr sr) ->
  emitted (loop calculate_price self events st w).1.1 =
    (fun event => (INFO, EventOfConverseStream event))
      <$> filter (fun event => is_metadata_event event = true) events.
Proof.
  intros Hall. revert st w.
  induction Hall as [|event ev events evs Hev _ IH]; intros st w ts sr ->;
    [done|].
  assert (is_metadata_event event = is_metadata ev) as Hm.
  { unfold is_metadata_event. rewrite Hev. by destruct ev. }
  rewrite loop_cons, filter_cons, Hm.
  destruct ev as [text|reason|i o|]; cbn [is_metadata]; case_decide; try done.
  - rewrite (handle_event_ContentDelta _ _ _ _ _ _ _ Hev).
    destruct (on_stream self (VStr text) w) as [r w1].
    specialize (IH (VStr <$> (ts ++ [text]), VStr sr) w1 _ _ eq_refl).
    rewrite fmap_app in IH. cbn [fmap list_fmap] in IH.
    destruct (loop _ _ events _ w1) as [[t' w''] out]. exact IH.
  - rewrite (handle_event_MessageStop _ _ _ _ _ _ _ Hev).
    specialize (IH (VStr <$> ts, VStr reason) w _ _ eq_refl).
    destruct (loop _ _ events _ w) as [[t' w''] out]. exact IH.
  - rewrite (handle_event_Metadata _ _ _ _ _ _ _ _ Hev). cbv zeta.
    destruct (on_stop self _ w) as [r w1].
    specialize (IH (VStr <$> ts, VStr sr) w1 _ _ eq_refl).
    destruct (loop _ _ events _ w1) as [[t' w''] out].
    rewrite fmap_cons. simpl in IH. simpl. unfold emitted in *. simpl.
    f_equal. exact IH.
  - rewrite (handle_event_Ignored _ _ _ _ _ _ Hev).
    specialize (IH (VStr <$> ts, VStr sr) w _ _ eq_refl).
    destruct (loop _ _ events _ w) as [[t' w''] out]. exact IH.
Qed.

(** X11.  What a run over well-formed events leaves in the log: the
    request, in full, at info level, then one info record per [Metadata]
    event, with the event.  The per-event debug records are below the
    level the module sets for its logger and are dropped. *)
Theorem emitted_records_of_a_run self args response w evs :
  backend_answer client args = Ok response ->
  classify_all (stream response) = Some evs ->
  emitted (run client calculate_price self args w).1.1 =
    (INFO, ArgsForConverseStream args)
    :: ((fun event => (INFO, EventOfConverseStream event))
          <$> filter (fun event => is_metadata_event event = true)
                (stream response)).
Proof.
  unfold backend_answer. intros Hanswer Hevs%classify_all_Forall2.
  destruct (base_args args) as [kw|e] eqn:Hkw; [|done]. simpl in Hanswer.
  rewrite run_unfold, open_stream_backend_answer, Hkw, Hanswer.
  pose proof (loop_emitted self _ _ ([], VStr []) w Hevs [] [] eq_refl)
    as Hloop.
  destruct (loop _ _ _ _ w) as [[t' w''] [st|e]]; simpl in *;
    by rewrite <- Hloop.
Qed.

End Summary.

(** ** The handler of [from_model] *)

Section FromModel.
Context {W : Type} {pydantic : Pydantic}.
Variable client : BedrockRuntimeClient.
Variable calculate_price : string -> Z -> Z -> float.
Implicit Types (w : W) (evs : list StreamEvent).

(** The events that make the run yield. *)
Lemma from_model_loop (model : string) (events : list dict) evs st w :
  Forall2 (fun event ev => classify event = Some ev) events evs ->
  forall ts sr, st = (VStr <$> ts, VStr sr) ->
  exists t st',
    loop calculate_price (from_model model) events st w = (t, w, Ok st') /\
    yields t =
      replicate (length (filter (fun ev => negb (quiet ev)) evs)) VNone.
Proof.
  intros Hall. revert st.
  induction Hall as [|event ev events evs Hev _ IH]; intros st ts sr ->.
  - by eexists [], _.
  - rewrite loop_cons. destruct ev as [text|reason|i o|].
    + rewrite (handle_event_ContentDelta _ _ _ _ _ _ _ Hev). simpl.
      destruct (IH (VStr <$> (ts ++ [text]), VStr sr) _ _ eq_refl)
        as (t & st' & Hloop & Hy).
      rewrite fmap_app in Hloop. cbn [fmap list_fmap] in Hloop.
      rewrite Hloop. eexists _, st'. split; [done|].
      change (VNone :: yields t = VNone :: replicate
                (length (filter (fun ev => negb (quiet ev)) evs)) VNone).
      by rewrite Hy.
    + rewrite (handle_event_MessageStop _ _ _ _ _ _ _ Hev).
      destruct (IH (VStr <$> ts, VStr reason) _ _ eq_refl)
        as (t & st' & Hloop & Hy).
      rewrite Hloop. by eexists _, st'.
    + rewrite (handle_event_Metadata _ _ _ _ _ _ _ _ Hev). simpl.
      destruct (IH (VStr <$> ts, VStr sr) _ _ eq_refl)
        as (t & st' & Hloop & Hy).
      rewrite Hloop. eexists _, st'. split; [done|].
      change (VNone :: yields t = VNone :: replicate
                (length (filter (fun ev => negb (quiet ev)) evs)) VNone).
      by rewrite Hy.
    + rewrite (handle_event_Ignored _ _ _ _ _ _ Hev).
      destruct (IH (VStr <$> ts, VStr sr) _ _ eq_refl)
        as (t & st' & Hloop & Hy).
      rewrite Hloop. by eexists _, st'.
Qed.

(** X12.  With the handler of [from_model], whose callbacks do
    nothing, a run over well-formed events still yields one element per
    [ContentDelta] and per [Metadata] event, each of them [None], and
    leaves the world as it was. *)
Theorem from_model_yields_none self_model args response w evs :
  backend_answer client args = Ok response ->
  classify_all (stream response) = Some evs ->
  exists t,
    run client calculate_price (from_model self_model) args w = (t, w, Ok ()) /\
    yields t =
      replicate (length (filter (fun ev => negb (quiet ev)) evs)) VNone.
Proof.
  unfold backend_answer. intros Hanswer Hevs%classify_all_Forall2.
  destruct (base_args args) as [kw|e] eqn:Hkw; [|done]. simpl in Hanswer.
  destruct (from_model_loop self_model _ _ ([], VStr []) w Hevs [] [] eq_refl)
    as (t & st' & Hloop & Hy).
  rewrite run_unfold, open_stream_backend_answer, Hkw, Hanswer, Hloop.
  by eexists.
Qed.

End FromModel.

(** ** The further properties on sample streams *)

Import Malformed.

Lemma midstream_failure_is_not_logged_witness :
  let events := [content_delta "Hi"; tool_use_delta; metadata 5 2] in
  backend_answer (client events) args = Ok {| stream := events |} /\
  forallb (fun a => negb (is_error_log a))
    (run (client events) calculate_price recorder args []).1.1 = true /\
  (run (client events) calculate_price recorder args []).2
    = Raise (KeyError "text").
Proof.
  intros events.
  assert (backend_answer (client events) args = Ok {| stream := events |})
    as Hanswer by reflexivity.
  split; [exact Hanswer|].
  destruct (midstream_failure_is_not_logged (client events) calculate_price
              recorder args {| stream := events |} [] Hanswer)
    as [Hlog Hraise].
  split; [exact Hlog|]. apply Hraise. reflexivity.
Defined.

Lemma missing_key_raises_key_error_witness :
  first_missing args_without_system = Some "system" /\
  run (client conversation) calculate_price recorder args_without_system []
    = ([Log ERROR (Error (KeyError "system"))], [], Raise (KeyError "system")).
Proof.
  assert (first_missing args_without_system = Some "system")
    as Hmissing by reflexivity.
  split; [exact Hmissing|].
  exact (missing_key_raises_key_error (client conversation) calculate_price
           recorder args_without_system [] "system" Hmissing).
Defined.

Lemma backend_called_exactly_once_witness :
  first_missing guarded_args = None /\
  (exists kw,
     base_args guarded_args = Ok kw /\
     backend_calls
       (run (haiku_client conversation) calculate_price probe
          guarded_args 0).1.1 = [kw]) /\
  (run (haiku_client conversation) calculate_price probe guarded_args 0).2
    = Ok ().
Proof.
  assert (first_missing guarded_args = None) as Hpresent by reflexivity.
  split; [exact Hpresent|].
  destruct (backend_called_exactly_once (haiku_client conversation)
              calculate_price probe guarded_args 0 Hpresent)
    as (kw & Hkw & Hcalls & Hrun).
  split; [by exists kw|].
  assert (kw = guarded_kwargs) as ->.
  { assert (Ok kw = Ok guarded_kwargs) as Heq by (by rewrite <- Hkw).
    by injection Heq. }
  rewrite Hrun. reflexivity.
Defined.

Lemma keyword_arguments_are_the_request_fields_witness :
  base_args args_with_tools = Ok kwargs /\
  kwargs !! "toolConfig" = None /\
  kwargs !! "inferenceConfig" = args_with_tools !! "inference_config".
Proof.
  assert (base_args args_with_tools = Ok kwargs) as Hkw by reflexivity.
  split; [exact Hkw|]. split.
  - exact (keyword_arguments_are_the_request_fields args_with_tools kwargs
             "toolConfig" Hkw).
  - exact (keyword_arguments_are_the_request_fields args_with_tools kwargs
             "inferenceConfig" Hkw).
Defined.

Lemma delta_without_text_raises_key_error_witness :
  let events := [content_delta "Hi"; tool_use_delta; metadata 5 2] in
  exists t w',
    run (client events) calculate_price probe args 0
      = (t, w', Raise (KeyError "text")) /\
    on_stream_calls t = [VStr (py "Hi")] /\
    on_stop_calls t = [] /\
    last t = Some (Log DEBUG (Event tool_use_delta)) /\
    relayed probe 0 t w'.
Proof.
  intros events.
  assert (backend_answer (client events) args = Ok {| stream := events |})
    as Hanswer by reflexivity.
  assert (classify_all [content_delta "Hi"] = Some [ContentDelta (py "Hi")])
    as Hpre by reflexivity.
  exact (delta_without_text_raises_key_error (client events) calculate_price
           probe args {| stream := events |} 0 [content_delta "Hi"]
           [metadata 5 2] tool_use_delta [ContentDelta (py "Hi")]
           (<["contentBlockIndex" := VInt 1]>
              {[ "delta" :=
                   VDict {[ "toolUse" :=
                              VDict {[ "input" := VStr (Py.of_string "{") ]} ]} ]})
           {[ "toolUse" := VDict {[ "input" := VStr (Py.of_string "{") ]} ]}
           Hanswer eq_refl Hpre eq_refl eq_refl eq_refl).
Defined.

Lemma summary_is_made_of_what_came_before_witness :
  let events :=
    [content_delta "Hi "; message_stop "max_tokens"; metadata 5 2;
     content_delta "there"; message_stop "end_turn"; metadata 7 3;
     content_delta "late"] in
  exists t w' summary,
    run (client events) calculate_price probe args 0 = (t, w', Ok ()) /\
    on_stop_calls t !! 1 = Some summary /\
    full_token summary = py "Hi there" /\
    stop_reason summary = py "end_turn" /\
    input_token_count summary = 7%Z /\ output_token_count summary = 3%Z /\
    price summary = calculate_price "claude-v3-haiku" 7 3 /\
    relayed probe 0 t w'.
Proof.
  intros events.
  assert (backend_answer (client events) args = Ok {| stream := events |})
    as Hanswer by reflexivity.
  assert (classify_all (stream {| stream := events |})
          = Some ([ContentDelta (py "Hi "); MessageStop (py "max_tokens");
                   Metadata 5 2; ContentDelta (py "there");
                   MessageStop (py "end_turn")]
                  ++ Metadata 7 3 :: [ContentDelta (py "late")]))
    as Hevs by reflexivity.
  exact (summary_is_made_of_what_came_before (client events) calculate_price
           probe args {| stream := events |} 0 _ _ 7 3 Hanswer Hevs).
Defined.

Lemma full_token_is_cut_after_last_non_space_witness :
  let events := [content_delta "  Hi "; content_delta "there  "; metadata 5 2] in
  exists t w' summary ws,
    run (client events) calculate_price recorder args [] = (t, w', Ok ()) /\
    on_stop_calls t !! 0 = Some summary /\
    py "  Hi there  " = full_token summary ++ ws /\
    forallb isspace ws = true /\
    forall c, last (full_token summary) = Some c -> isspace c = false.
Proof.
  intros events.
  assert (backend_answer (client events) args = Ok {| stream := events |})
    as Hanswer by reflexivity.
  assert (classify_all (stream {| stream := events |})
          = Some ([ContentDelta (py "  Hi "); ContentDelta (py "there  ")]
                  ++ Metadata 5 2 :: [])) as Hevs by reflexivity.
  exact (full_token_is_cut_after_last_non_space (client events)
           calculate_price recorder args {| stream := events |} [] _ _ 5 2
           Hanswer Hevs).
Defined.

Lemma emitted_records_of_a_run_witness :
  emitted (run (client conversation) calculate_price recorder args []).1.1 =
    [(INFO, ArgsForConverseStream args);
     (INFO, EventOfConverseStream (metadata 5 2))].
Proof.
  assert (backend_answer (client conversation) args
          = Ok {| stream := conversation |}) as Hanswer by reflexivity.
  assert (classify_all (stream {| stream := conversation |})
          = Some conversation_events) as Hevs by reflexivity.
  exact (emitted_records_of_a_run (client conversation) calculate_price
           recorder args {| stream := conversation |} [] conversation_events
           Hanswer Hevs).
Defined.

Lemma from_model_yields_none_witness :
  exists t,
    run (client conversation) calculate_price (from_model "claude-v3-haiku")
      args 0 = (t, 0, Ok ()) /\
    yields t = [VNone; VNone; VNone].
Proof.
  assert (backend_answer (client conversation) args
          = Ok {| stream := conversation |}) as Hanswer by reflexivity.
  assert (classify_all (stream {| stream := conversation |})
          = Some conversation_events) as Hevs by reflexivity.
  exact (from_model_yields_none (client conversation) calculate_price
           "claude-v3-haiku" args {| stream := conversation |} 0
           conversation_events Hanswer Hevs).
Defined.
